(** * Face detection and crop pipeline of the poster generator

    A shallow embedding of [src/utils/faceDetection.ts]:

    - [loadModels]: the lazily loaded, flag-guarded TinyFaceDetector model;
    - [detectFace]: single-face detection that swallows every error;
    - [cropImageToFace]: the square, padded, clamped crop around a face and
      its JPEG re-encoding;
    - [processImageWithFaceDetection]: the pipeline with its fallback.

    The crop formula is given twice: over exact rationals ([Geometry]), to
    compare it with the reference definition, and over IEEE 754 doubles
    ([Binary64]), the arithmetic the code runs in, for what the computed
    rectangle satisfies.
    Everything the browser or face-api.js decides (module import, model
    fetch, inference, image decoding, canvas acquisition, encoding) is a
    field of the record [World]; the two module-level variables of the file
    are the record [State].

    The second part embeds the callers and the poster: the handlers of
    [App.tsx], [getToggleOptions] of [CustomizationPanel.tsx], the tables of
    the two selectors, and [getFontFamily], [getFilterStyles] and
    [handleDownload] of [PosterGenerator.tsx]. *)

From Stdlib Require Import QArith Qminmax Lqa ZArith List String Bool Lia Floats.
Import ListNotations.

Local Open Scope Q_scope.

(** ** Numbers and face-api.js data *)

(** [faceapi.FaceDetection.box]: pixel coordinates in the source image. *)
Record Box : Type := mkBox {
  x : Q;
  y : Q;
  width : Q;
  height : Q
}.

(** The part of [faceapi.FaceDetection] the file reads ([box]) and the
    confidence the detector attaches to it. *)
Record FaceDetection : Type := mkFaceDetection {
  box : Box;
  score : Q
}.

(** A decoded [HTMLImageElement]: [img.width] and [img.height]. *)
Record HTMLImageElement : Type := mkImage {
  img_src : string;
  img_width : Z;
  img_height : Z
}.

(** The source and destination rectangle handed to [ctx.drawImage], which is
    also the crop rectangle: [cropX], [cropY], [cropWidth], [cropHeight]. *)
Record CropRectangle : Type := mkCrop {
  cropX : Q;
  cropY : Q;
  cropWidth : Q;
  cropHeight : Q
}.

(** Field-wise equality of rectangles up to equality of rationals. *)
Definition crop_eq (r1 r2 : CropRectangle) : Prop :=
  cropX r1 == cropX r2 /\ cropY r1 == cropY r2 /\
  cropWidth r1 == cropWidth r2 /\ cropHeight r1 == cropHeight r2.

(** Default value of the parameter [padding] of [cropImageToFace]. *)
Definition default_padding : Q := 18 # 10.

(** ** Crop geometry (lines 79-95 of faceDetection.ts) *)

Module Geometry.

(** The arithmetic of [img.onload] in [cropImageToFace], binding for binding. *)
Definition cropGeometry (b : Box) (imgW imgH : Q) (padding : Q) : CropRectangle :=
  let faceWidth := width b in
  let faceHeight := height b in
  let faceCenterX := x b + faceWidth / 2 in
  let faceCenterY := y b + faceHeight / 2 in
  let maxDimension := Qmax faceWidth faceHeight in
  let cropSize := maxDimension * padding in
  let cX := Qmax 0 (faceCenterX - cropSize / 2) in
  let cY := Qmax 0 (faceCenterY - cropSize / 2) in
  let cW := Qmin cropSize (imgW - cX) in
  let cH := Qmin cropSize (imgH - cY) in
  mkCrop cX cY cW cH.

(** The reference definition of the specification ([computeCrop], steps 1-4),
    written after its wording and compared with [cropGeometry] below. *)
Definition spec_faceCenterX (b : Box) : Q := x b + width b / 2.
Definition spec_faceCenterY (b : Box) : Q := y b + height b / 2.
Definition spec_cropSize (b : Box) (padding : Q) : Q :=
  Qmax (width b) (height b) * padding.

Definition spec_computeCrop (b : Box) (imgW imgH : Q) (padding : Q) : CropRectangle :=
  {| cropX := Qmax 0 (spec_faceCenterX b - spec_cropSize b padding / 2);
     cropY := Qmax 0 (spec_faceCenterY b - spec_cropSize b padding / 2);
     cropWidth :=
       Qmin (spec_cropSize b padding)
            (imgW - Qmax 0 (spec_faceCenterX b - spec_cropSize b padding / 2));
     cropHeight :=
       Qmin (spec_cropSize b padding)
            (imgH - Qmax 0 (spec_faceCenterY b - spec_cropSize b padding / 2)) |}.


(** The box of the worked scenario of the specification. *)
Definition scenario_box : Box := mkBox 400 300 120 160.

End Geometry.

(** ** The crop in double precision *)

Module Binary64.

Local Open Scope float_scope.

(** [Math.max] and [Math.min] on doubles: NaN as soon as one argument is
    NaN, otherwise the larger (smaller) argument; of the two zeros, [+0] is
    the larger. *)
Definition Math_max (a b : float) : float :=
  if is_nan a || is_nan b then nan
  else if a <? b then b
  else if b <? a then a
  else if get_sign a then b else a.

Definition Math_min (a b : float) : float :=
  if is_nan a || is_nan b then nan
  else if a <? b then a
  else if b <? a then b
  else if get_sign a then a else b.

(** Lines 82-95 over IEEE 754 doubles, in the source's evaluation order. *)
Definition cropGeometry (bx by_ bw bh imgW imgH padding : float)
  : float * float * float * float :=
  let faceCenterX := bx + bw / 2 in
  let faceCenterY := by_ + bh / 2 in
  let maxDimension := Math_max bw bh in
  let cropSize := maxDimension * padding in
  let cX := Math_max 0 (faceCenterX - cropSize / 2) in
  let cY := Math_max 0 (faceCenterY - cropSize / 2) in
  let cW := Math_min cropSize (imgW - cX) in
  let cH := Math_min cropSize (imgH - cY) in
  (cX, cY, cW, cH).




End Binary64.

Local Open Scope string_scope.

(** ** Promises, module state and the outside world *)

(** A JavaScript error value, identified by its message. *)
Definition Error : Type := string.

(** How a promise settles. *)
Inductive Outcome (A : Type) : Type :=
| Resolved (a : A)
| Rejected (e : Error).

Arguments Resolved {A} a.
Arguments Rejected {A} e.

(** The module-level variables [faceapi] (line 3: undefined until the dynamic
    import succeeds) and [modelsLoaded] (line 6), the console, and two
    counters that record how many imports and model fetches were started. *)
Record State : Type := mkState {
  faceapi : bool;
  modelsLoaded : bool;
  imports : nat;
  fetches : nat;
  console : list string
}.

Definition initial : State := mkState false false 0 0 [].

(** The argument of [new faceapi.TinyFaceDetectorOptions]. *)
Record TinyFaceDetectorOptions : Type := mkOptions {
  inputSize : Z;
  scoreThreshold : Q
}.

(** A canvas after [canvas.width], [canvas.height] and [ctx.drawImage]. *)
Record Canvas : Type := mkCanvas {
  canvas_width : Q;
  canvas_height : Q;
  drawn_image : HTMLImageElement;
  drawn_source : CropRectangle;
  drawn_dest : CropRectangle
}.

(** The two places that create an [Image] and wait for it to load. *)
Inductive Site : Type :=
| InProcess   (* processImageWithFaceDetection, line 142 *)
| InCrop.     (* cropImageToFace, line 75 *)

(** Everything decided outside the file.  The [k]-th dynamic import and the
    [k]-th model fetch settle as the world says; an image either loads
    ([Some], [onload]) or fails to decode ([None], [onerror]). *)
Record World : Type := mkWorld {
  import_faceapi : nat -> Outcome unit;
  loadFromUri : nat -> string -> Outcome unit;
  detectSingleFace :
    HTMLImageElement -> TinyFaceDetectorOptions -> Outcome (option FaceDetection);
  loadImage : Site -> string -> option HTMLImageElement;
  getContext2d : bool;
  toDataURL : Canvas -> string -> Q -> string
}.

(** ** A small monad for async functions run without interleaving *)

Definition Async (A : Type) : Type := State -> Outcome A * State.

Definition ret {A : Type} (a : A) : Async A := fun s => (Resolved a, s).

Definition throw {A : Type} (e : Error) : Async A := fun s => (Rejected e, s).

Definition bind {A B : Type} (c : Async A) (k : A -> Async B) : Async B :=
  fun s =>
    match c s with
    | (Resolved a, s') => k a s'
    | (Rejected e, s') => (Rejected e, s')
    end.

Definition tryCatch {A : Type} (c : Async A) (h : Error -> Async A) : Async A :=
  fun s =>
    match c s with
    | (Resolved a, s') => (Resolved a, s')
    | (Rejected e, s') => h e s'
    end.

Definition get : Async State := fun s => (Resolved s, s).

Definition modify (f : State -> State) : Async unit := fun s => (Resolved tt, f s).

(** [await p] for a promise that has settled as [o]. *)
Definition await {A : Type} (o : Outcome A) : Async A := fun s => (o, s).

Declare Scope async_scope.
Delimit Scope async_scope with async.
Notation "x <- c ;; k" := (bind c (fun x => k))
  (at level 61, c at next level, right associativity) : async_scope.
Notation "c ;; k" := (bind c (fun _ => k))
  (at level 61, right associativity) : async_scope.
Local Open Scope async_scope.

(** ** State updates *)

Definition set_faceapi (s : State) : State :=
  mkState true (modelsLoaded s) (imports s) (fetches s) (console s).

Definition set_modelsLoaded (s : State) : State :=
  mkState (faceapi s) true (imports s) (fetches s) (console s).

Definition count_import (s : State) : State :=
  mkState (faceapi s) (modelsLoaded s) (S (imports s)) (fetches s) (console s).

Definition count_fetch (s : State) : State :=
  mkState (faceapi s) (modelsLoaded s) (imports s) (S (fetches s)) (console s).

Definition console_write (msg : string) (s : State) : State :=
  mkState (faceapi s) (modelsLoaded s) (imports s) (fetches s) (console s ++ [msg]).

(** ** loadModels (lines 13-34) *)

Definition MODEL_URL : string := "https://cdn.jsdelivr.net/npm/@vladmandic/face-api/model".

(** [faceapi = await import('face-api.js')]: the assignment happens only when
    the import resolves. *)
Definition importFaceapi (w : World) : Async unit :=
  s <- get ;;
  modify count_import ;;
  await (import_faceapi w (imports s)) ;;
  modify set_faceapi.

(** [await faceapi.nets.tinyFaceDetector.loadFromUri(MODEL_URL)]. *)
Definition fetchModel (w : World) : Async unit :=
  s <- get ;;
  modify count_fetch ;;
  await (loadFromUri w (fetches s) MODEL_URL).

Definition loadModels (w : World) : Async unit :=
  s <- get ;;
  if modelsLoaded s then ret tt
  else
    tryCatch
      ((s0 <- get ;; if negb (faceapi s0) then importFaceapi w else ret tt) ;;
       fetchModel w ;;
       modify set_modelsLoaded ;;
       modify (console_write "Face detection models loaded successfully"))
      (fun error =>
         modify (console_write "Error loading face detection models:") ;;
         throw error).

(** ** detectFace (lines 41-59) *)

Definition detectorOptions : TinyFaceDetectorOptions := mkOptions 416 (1 # 2).

(** [faceapi.detectSingleFace(...)]: a property access on the module
    variable, which throws a TypeError while the variable is undefined. *)
Definition callDetectSingleFace (w : World) (imageElement : HTMLImageElement)
  : Async (option FaceDetection) :=
  s <- get ;;
  if faceapi s
  then await (detectSingleFace w imageElement detectorOptions)
  else throw "TypeError: Cannot read properties of undefined".

Definition detectFace (w : World) (imageElement : HTMLImageElement)
  : Async (option FaceDetection) :=
  tryCatch
    (loadModels w ;;
     detection <- callDetectSingleFace w imageElement ;;
     (* detection || null *)
     ret detection)
    (fun error =>
       modify (console_write "Error detecting face:") ;;
       ret None).

(** ** cropImageToFace (lines 68-129) *)

(** Lines 98-115: a canvas of the size of the crop, with the crop drawn at
    its origin.  [canvas_width] and [canvas_height] are the numbers
    assigned on lines 107-108, before the browser converts them to the
    unsigned integers a canvas has. *)
Definition drawCrop (img : HTMLImageElement) (r : CropRectangle) : Canvas :=
  mkCanvas (cropWidth r) (cropHeight r) img r
           (mkCrop 0 0 (cropWidth r) (cropHeight r)).

Definition cropImageToFace (w : World) (imageDataUrl : string)
    (detection : FaceDetection) (padding : Q) : Outcome string :=
  match loadImage w InCrop imageDataUrl with
  | None => Rejected "Failed to load image for cropping"
  | Some img =>
      let r := Geometry.cropGeometry (box detection)
                 (inject_Z (img_width img)) (inject_Z (img_height img)) padding in
      if getContext2d w then
        Resolved (toDataURL w (drawCrop img r) "image/jpeg" (95 # 100))
      else Rejected "Could not get canvas context"
  end.

(** ** processImageWithFaceDetection (lines 136-182) *)

Record ProcessingResult : Type := mkResult {
  processedImage : string;
  faceDetected : bool;
  detection : option FaceDetection
}.

Definition fallback (imageDataUrl : string) : ProcessingResult :=
  mkResult imageDataUrl false None.

Definition processImageWithFaceDetection (w : World) (imageDataUrl : string)
  : Async ProcessingResult :=
  match loadImage w InProcess imageDataUrl with
  | None => throw "Failed to load image"
  | Some img =>
      tryCatch
        (found <- detectFace w img ;;
         match found with
         | Some d =>
             croppedImage <- await (cropImageToFace w imageDataUrl d default_padding) ;;
             ret (mkResult croppedImage true (Some d))
         | None => ret (fallback imageDataUrl)
         end)
        (fun error =>
           modify (console_write "Error processing image:") ;;
           ret (fallback imageDataUrl))
  end.

(** ** loadModels with interleaving

    A call of [loadModels] runs synchronously up to its next [await]; other
    callers may run while it is suspended.  [LoadTask] is the continuation of
    one call, [resume] runs it up to its next suspension point. *)

Module Interleaving.

Inductive LoadTask : Type :=
| AtEntry                      (* called, nothing executed yet *)
| AwaitingImport (k : nat)     (* suspended at line 19 on import number k *)
| AwaitingFetch (k : nat)      (* suspended at line 26 on fetch number k *)
| Settled (o : Outcome unit).

(** Line 26: start the model fetch and suspend. *)
Definition startFetch (s : State) : LoadTask * State :=
  (AwaitingFetch (fetches s), count_fetch s).

(** Lines 30-33: the catch block. *)
Definition caught (e : Error) (s : State) : LoadTask * State :=
  (Settled (Rejected e), console_write "Error loading face detection models:" s).

Definition resume (w : World) (t : LoadTask) (s : State) : LoadTask * State :=
  match t with
  | AtEntry =>
      if modelsLoaded s then (Settled (Resolved tt), s)
      else if negb (faceapi s) then (AwaitingImport (imports s), count_import s)
      else startFetch s
  | AwaitingImport k =>
      match import_faceapi w k with
      | Resolved _ => startFetch (set_faceapi s)
      | Rejected e => caught e s
      end
  | AwaitingFetch k =>
      match loadFromUri w k MODEL_URL with
      | Resolved _ =>
          (Settled (Resolved tt),
           console_write "Face detection models loaded successfully" (set_modelsLoaded s))
      | Rejected e => caught e s
      end
  | Settled o => (Settled o, s)
  end.

(** One call run to completion with nobody else scheduled in between. *)
Definition runAlone (w : World) (s : State) : LoadTask * State :=
  let '(t1, s1) := resume w AtEntry s in
  let '(t2, s2) := resume w t1 s1 in
  resume w t2 s2.

(** The callers in flight, and an event loop that resumes them in the order
    given by a schedule (a list of caller indices). *)
Definition Pool : Type := list LoadTask.

Fixpoint resumeNth (w : World) (i : nat) (p : Pool) (s : State) : Pool * State :=
  match p, i with
  | [], _ => ([], s)
  | t :: rest, O => let '(t', s') := resume w t s in (t' :: rest, s')
  | t :: rest, S j => let '(rest', s') := resumeNth w j rest s in (t :: rest', s')
  end.

Fixpoint runSchedule (w : World) (sched : list nat) (p : Pool) (s : State)
  : Pool * State :=
  match sched with
  | [] => (p, s)
  | i :: sched' => let '(p', s') := resumeNth w i p s in runSchedule w sched' p' s'
  end.

End Interleaving.

(** [n] calls of [loadModels], each awaited before the next is made; returns
    how each of them settled, oldest first. *)
Fixpoint loadModelsTimes (w : World) (n : nat) : State -> list (Outcome unit) * State :=
  fun s =>
    match n with
    | O => ([], s)
    | S m =>
        let '(o, s1) := loadModels w s in
        let '(os, s2) := loadModelsTimes w m s1 in
        (o :: os, s2)
    end.

(** ** Concrete worlds *)

Module Scenarios.

Definition png_upload : string := "data:image/png;base64,iVBORw0KGgo=".

Definition scenario_face : FaceDetection :=
  mkFaceDetection Geometry.scenario_box (9 # 10).

(** The browser's serialisation of a canvas, reduced to its media type. *)
Definition encode (c : Canvas) (mime : string) (quality : Q) : string :=
  "data:" ++ mime ++ ";base64,".

(** Every import, fetch and decode succeeds; the detector finds no face. *)
Definition reliable : World :=
  mkWorld (fun _ => Resolved tt) (fun _ _ => Resolved tt)
          (fun _ _ => Resolved None)
          (fun _ src => Some (mkImage src 1000 800))
          true encode.

(** As [reliable], and the detector finds the face of the worked scenario. *)
Definition with_face : World :=
  mkWorld (fun _ => Resolved tt) (fun _ _ => Resolved tt)
          (fun _ _ => Resolved (Some scenario_face))
          (fun _ src => Some (mkImage src 1000 800))
          true encode.

(** The uploaded bytes are not an image: [img.onerror] fires everywhere. *)
Definition undecodable : World :=
  mkWorld (fun _ => Resolved tt) (fun _ _ => Resolved tt)
          (fun _ _ => Resolved (Some scenario_face))
          (fun _ _ => None)
          true encode.

(** The first model fetch fails, every later one succeeds. *)
Definition flaky_network : World :=
  mkWorld (fun _ => Resolved tt)
          (fun k _ => match k with O => Rejected "Failed to fetch" | S _ => Resolved tt end)
          (fun _ _ => Resolved (Some scenario_face))
          (fun _ src => Some (mkImage src 1000 800))
          true encode.

(** A face is found but no 2d context can be acquired. *)
Definition no_canvas : World :=
  mkWorld (fun _ => Resolved tt) (fun _ _ => Resolved tt)
          (fun _ _ => Resolved (Some scenario_face))
          (fun _ src => Some (mkImage src 1000 800))
          false encode.

(** The detector throws during inference. *)
Definition broken_detector : World :=
  mkWorld (fun _ => Resolved tt) (fun _ _ => Resolved tt)
          (fun _ _ => Rejected "inference failed")
          (fun _ src => Some (mkImage src 1000 800))
          true encode.

End Scenarios.

(** ** Invariants and measures of the module state *)

(** The flag is only ever set after the module reference: a state in which
    [modelsLoaded] holds has [faceapi] defined. *)
Definition consistent (s : State) : Prop :=
  modelsLoaded s = true -> faceapi s = true.

Module Callers.
Import Interleaving.

(** A caller that has not yet reached its fetch may still start one. *)
Definition mayFetch (t : LoadTask) : nat :=
  match t with
  | AtEntry | AwaitingImport _ => 1
  | AwaitingFetch _ | Settled _ => 0
  end.

(** A caller that has not yet entered may still start an import. *)
Definition mayImport (t : LoadTask) : nat :=
  match t with
  | AtEntry => 1
  | AwaitingImport _ | AwaitingFetch _ | Settled _ => 0
  end.


Definition isSettled (t : LoadTask) : bool :=
  match t with
  | Settled _ => true
  | _ => false
  end.

(** The number of suspension points a caller may still go through. *)
Definition stepsLeft (t : LoadTask) : nat :=
  match t with
  | AtEntry => 3
  | AwaitingImport _ => 2
  | AwaitingFetch _ => 1
  | Settled _ => 0
  end.

(** How often caller [i] is resumed by a schedule. *)
Definition turns (i : nat) (sched : list nat) : nat :=
  count_occ Nat.eq_dec sched i.

End Callers.

(** * The form and the poster

    The selector tables ([FontSelector.tsx], [FilterSelector.tsx]), the
    option panel ([CustomizationPanel.tsx]), the handlers of [App.tsx] and
    the pure parts of [PosterGenerator.tsx].  Text typed by the user is a
    sequence of UTF-16 code units; identifiers and URLs are ASCII strings. *)

(** ** FontSelector.tsx and FilterSelector.tsx: the tables *)

Module Selectors.

Record Font : Type := mkFont {
  font_id : string;
  font_name : string;
  font_style : string
}.

Definition fonts : list Font :=
  [ mkFont "serif" "Classic Serif" "serif";
    mkFont "western" "Bold Western" "Impact, Haettenschweiler, sans-serif";
    mkFont "oldstyle" "Old Style" "Georgia, serif";
    mkFont "display" "Display" "Courier New, monospace";
    mkFont "decorative" "Decorative" "Copperplate, Papyrus, fantasy" ].

Record Filter : Type := mkFilter {
  filter_id : string;
  filter_name : string;
  filter_description : string;
  filter_preview : string
}.

Definition filters : list Filter :=
  [ mkFilter "classic" "Classic Wanted" "Traditional wanted poster" "bg-amber-800";
    mkFilter "vintage" "Vintage Sepia" "Aged photograph effect" "bg-orange-900";
    mkFilter "reward" "Reward Notice" "High reward bounty" "bg-red-900";
    mkFilter "sheriff" "Sheriff Badge" "Official law enforcement" "bg-yellow-700";
    mkFilter "saloon" "Saloon Poster" "Entertainment & events" "bg-green-800";
    mkFilter "landoffer" "Land Offer" "Property advertisement" "bg-blue-800";
    mkFilter "showbill" "Show Bill" "Performance poster" "bg-red-700";
    mkFilter "travel" "Travel Poster" "Railroad & stagecoach" "bg-slate-700" ].

(** The identifiers the buttons hand to [onFontChange] and [onFilterChange]. *)
Definition fontIds : list string := map font_id fonts.
Definition filterIds : list string := map filter_id filters.

Definition member (k : string) (l : list string) : bool :=
  existsb (String.eqb k) l.

End Selectors.

(** ** CustomizationPanel.tsx: getToggleOptions (lines 29-79) *)

Module Panel.

Record ToggleOption : Type := mkToggle {
  id : string;
  label : string;
  description : string
}.

Definition baseOptions : list ToggleOption :=
  [ mkToggle "showBorder" "Decorative Border" "Corner decorations";
    mkToggle "showCornerDecorations" "Corner Accents" "Diamond corner pieces" ].

Definition filterSpecificOptions : list (string * list ToggleOption) :=
  [ ("classic",
     [ mkToggle "showReward" "Reward Amount" "Display reward banner";
       mkToggle "showSubtitle" "Subtitle Box" "Show highlighted subtitle";
       mkToggle "showBottomText" "Bottom Notice" "Sheriff contact text" ]);
    ("vintage",
     [ mkToggle "showReward" "Reward Amount" "Display reward banner";
       mkToggle "showSubtitle" "Subtitle Box" "Show highlighted subtitle";
       mkToggle "showBottomText" "Bottom Notice" "Contact information" ]);
    ("reward",
     [ mkToggle "showReward" "Reward Amount" "Display reward banner";
       mkToggle "showSubtitle" "Subtitle Box" "Show highlighted subtitle";
       mkToggle "showBottomText" "Bottom Warning" "Dead or alive notice" ]);
    ("sheriff",
     [ mkToggle "showSubtitle" "Subtitle Box" "Show highlighted subtitle";
       mkToggle "showBottomText" "Official Notice" "Sheriff badge text" ]);
    ("saloon",
     [ mkToggle "showSubtitle" "Venue Box" "Show venue location";
       mkToggle "showBottomText" "Event Details" "Show event information" ]);
    ("landoffer",
     [ mkToggle "showSubtitle" "Location Box" "Show property location";
       mkToggle "showBottomText" "Contact Info" "Land office details" ]);
    ("showbill",
     [ mkToggle "showSubtitle" "Venue Box" "Show performance venue";
       mkToggle "showBottomText" "Show Details" "Ticket information" ]);
    ("travel",
     [ mkToggle "showSubtitle" "Route Box" "Show departure/destination";
       mkToggle "showBottomText" "Booking Info" "Ticket office details" ]) ].

(** Own-property lookup in an object literal. *)
Fixpoint ownProperty {A : Type} (k : string) (o : list (string * A)) : option A :=
  match o with
  | [] => None
  | (k', v) :: rest => if String.eqb k' k then Some v else ownProperty k rest
  end.

(** The property names every object literal inherits from [Object.prototype]:
    a lookup of one of them on [filterSpecificOptions] finds a function (or,
    for [__proto__], the prototype itself), not [undefined]. *)
Definition inheritedKeys : list string :=
  [ "constructor"; "hasOwnProperty"; "isPrototypeOf"; "propertyIsEnumerable";
    "toLocaleString"; "toString"; "valueOf"; "__proto__";
    "__defineGetter__"; "__defineSetter__"; "__lookupGetter__"; "__lookupSetter__" ].

(** [filterSpecificOptions.classic]. *)
Definition classicOptions : list ToggleOption :=
  match ownProperty "classic" filterSpecificOptions with
  | Some l => l
  | None => []
  end.

(** [[...baseOptions, ...(filterSpecificOptions[selectedFilter] ||
    filterSpecificOptions.classic)]].  [None] stands for the one case left
    out of the model: [selectedFilter] names an inherited property, so that
    what is spread is not an array of options. *)
Definition getToggleOptions (selectedFilter : string) : option (list ToggleOption) :=
  match ownProperty selectedFilter filterSpecificOptions with
  | Some specific => Some (baseOptions ++ specific)%list
  | None =>
      if Selectors.member selectedFilter inheritedKeys then None
      else Some (baseOptions ++ classicOptions)%list
  end.

(** The identifiers of the checkboxes rendered for a filter. *)
Definition toggleIds (selectedFilter : string) : list string :=
  match getToggleOptions selectedFilter with
  | Some l => map id l
  | None => []
  end.

End Panel.

(** ** App.tsx: state and handlers *)

Module App.

(** Text typed into an input: UTF-16 code units. *)
Definition JSString : Type := list N.

(** [customOptions]: an object of boolean properties, as its own properties
    in insertion order. *)
Definition Options : Type := list (string * bool).

(** [{ ...prev, [option]: value }]: an existing property keeps its place and
    takes the new value, a new one is added at the end (keys that look like
    array indices, which JavaScript lists first, are not option names). *)
Fixpoint setProperty (option : string) (value : bool) (prev : Options) : Options :=
  match prev with
  | [] => [(option, value)]
  | (k, v) :: rest =>
      if String.eqb k option then (k, value) :: rest
      else (k, v) :: setProperty option value rest
  end.

(** The [useState] cells of lines 19-56. *)
Record AppState : Type := mkApp {
  name : JSString;
  location : JSString;
  selectedImage : option string;
  selectedFilter : string;
  selectedFont : string;
  customOptions : Options;
  showPoster : bool;
  isProcessingImage : bool;
  faceDetected : option bool;
  faceDetectionEnabled : bool;
  originalImage : option string
}.

Definition initialApp : AppState :=
  {| name := [];
     location := [];
     selectedImage := None;
     selectedFilter := "classic";
     selectedFont := "serif";
     customOptions :=
       [ ("showBorder", true); ("showReward", true);
         ("showCornerDecorations", true); ("showSubtitle", true);
         ("showBottomText", true) ];
     showPoster := false;
     isProcessingImage := false;
     faceDetected := None;
     faceDetectionEnabled := true;
     originalImage := None |}.

(** The setters. *)
Definition setName (v : JSString) (a : AppState) : AppState :=
  mkApp v (location a) (selectedImage a) (selectedFilter a) (selectedFont a)
        (customOptions a) (showPoster a) (isProcessingImage a) (faceDetected a)
        (faceDetectionEnabled a) (originalImage a).

Definition setLocation (v : JSString) (a : AppState) : AppState :=
  mkApp (name a) v (selectedImage a) (selectedFilter a) (selectedFont a)
        (customOptions a) (showPoster a) (isProcessingImage a) (faceDetected a)
        (faceDetectionEnabled a) (originalImage a).

Definition setSelectedImage (v : option string) (a : AppState) : AppState :=
  mkApp (name a) (location a) v (selectedFilter a) (selectedFont a)
        (customOptions a) (showPoster a) (isProcessingImage a) (faceDetected a)
        (faceDetectionEnabled a) (originalImage a).

Definition setSelectedFilter (v : string) (a : AppState) : AppState :=
  mkApp (name a) (location a) (selectedImage a) v (selectedFont a)
        (customOptions a) (showPoster a) (isProcessingImage a) (faceDetected a)
        (faceDetectionEnabled a) (originalImage a).

Definition setSelectedFont (v : string) (a : AppState) : AppState :=
  mkApp (name a) (location a) (selectedImage a) (selectedFilter a) v
        (customOptions a) (showPoster a) (isProcessingImage a) (faceDetected a)
        (faceDetectionEnabled a) (originalImage a).

Definition setCustomOptions (f : Options -> Options) (a : AppState) : AppState :=
  mkApp (name a) (location a) (selectedImage a) (selectedFilter a) (selectedFont a)
        (f (customOptions a)) (showPoster a) (isProcessingImage a) (faceDetected a)
        (faceDetectionEnabled a) (originalImage a).

Definition setShowPoster (v : bool) (a : AppState) : AppState :=
  mkApp (name a) (location a) (selectedImage a) (selectedFilter a) (selectedFont a)
        (customOptions a) v (isProcessingImage a) (faceDetected a)
        (faceDetectionEnabled a) (originalImage a).

Definition setIsProcessingImage (v : bool) (a : AppState) : AppState :=
  mkApp (name a) (location a) (selectedImage a) (selectedFilter a) (selectedFont a)
        (customOptions a) (showPoster a) v (faceDetected a)
        (faceDetectionEnabled a) (originalImage a).

Definition setFaceDetected (v : option bool) (a : AppState) : AppState :=
  mkApp (name a) (location a) (selectedImage a) (selectedFilter a) (selectedFont a)
        (customOptions a) (showPoster a) (isProcessingImage a) v
        (faceDetectionEnabled a) (originalImage a).

Definition setFaceDetectionEnabled (v : bool) (a : AppState) : AppState :=
  mkApp (name a) (location a) (selectedImage a) (selectedFilter a) (selectedFont a)
        (customOptions a) (showPoster a) (isProcessingImage a) (faceDetected a)
        v (originalImage a).

Definition setOriginalImage (v : option string) (a : AppState) : AppState :=
  mkApp (name a) (location a) (selectedImage a) (selectedFilter a) (selectedFont a)
        (customOptions a) (showPoster a) (isProcessingImage a) (faceDetected a)
        (faceDetectionEnabled a) v.

(** Truthiness of a [string | null] and of a string. *)
Definition truthy (v : option string) : bool :=
  match v with
  | Some s => negb (String.eqb s EmptyString)
  | None => false
  end.

Definition nonEmpty (v : JSString) : bool :=
  match v with
  | [] => false
  | _ :: _ => true
  end.

(** Lines 63-66. *)
Definition handleCustomOptionChange (option : string) (value : bool)
    (a : AppState) : AppState :=
  setCustomOptions (fun prev => setProperty option value prev) a.

(** The [try]/[catch]/[finally] shared by the two async handlers: run the
    pipeline on [image] when detection is [enabled], else take the image as
    it is; [errorLabel] is the text of the [console.error] of the handler.
    A handler is run to its end before the next event is handled. *)
Definition processOrKeep (w : World) (enabled : bool) (image : string)
    (errorLabel : string) (a : AppState) (s : State) : AppState * State :=
  let '(a', s') :=
    if enabled then
      match processImageWithFaceDetection w image s with
      | (Resolved (mkResult processed detected _), s1) =>
          (setFaceDetected (Some detected) (setSelectedImage (Some processed) a),
           console_write
             (if detected then "Face detected and image cropped"
              else "No face detected, using original image") s1)
      | (Rejected _, s1) =>
          (setFaceDetected (Some false) (setSelectedImage (Some image) a),
           console_write errorLabel s1)
      end
    else
      (setFaceDetected None (setSelectedImage (Some image) a),
       console_write "Face detection disabled, using original image" s)
  in
  (setIsProcessingImage false a', s').

(** Lines 73-104. *)
Definition handleFaceDetectionToggle (w : World) (enabled : bool)
    (a : AppState) (s : State) : AppState * State :=
  let a1 := setFaceDetectionEnabled enabled a in
  match originalImage a with
  | Some original =>
      if truthy (originalImage a) then
        processOrKeep w enabled original "Error reprocessing image:"
          (setFaceDetected None (setIsProcessingImage true a1)) s
      else (a1, s)
  | None => (a1, s)
  end.

(** Lines 111-161.  [file] is [None] when no file was chosen and [Some url]
    when one was and the [FileReader] delivered [url] as its result; a read
    that fails is outside the model.  [faceDetectionEnabled] is the value
    the handler closed over when the file was chosen.  The handler is
    taken as one step: the file input is never disabled, so in the browser
    a second upload can start before the first has ended; that overlap is
    outside the model, and what is proved of this function is proved of an
    upload that runs alone. *)
Definition handleImageUpload (w : World) (file : option string)
    (a : AppState) (s : State) : AppState * State :=
  match file with
  | None => (a, s)
  | Some imageDataUrl =>
      let a1 := setIsProcessingImage true (setFaceDetected None a) in
      let a2 := setOriginalImage (Some imageDataUrl) a1 in
      processOrKeep w (faceDetectionEnabled a) imageDataUrl
        "Error processing image:" a2 s
  end.

(** Lines 167-173. *)
Definition handleGeneratePoster (a : AppState) : AppState :=
  if nonEmpty (name a) && truthy (selectedImage a) then setShowPoster true a else a.

(** Lines 178-181. *)
Definition handleReset (a : AppState) : AppState := setShowPoster false a.

(** Line 184: which of the two views is rendered. *)
Inductive View : Type := PosterView | FormView.

Definition render (a : AppState) : View :=
  if showPoster a && truthy (selectedImage a) then PosterView else FormView.

(** What the user can do. *)
Inductive Event : Type :=
| ChangeName (v : JSString)
| ChangeLocation (v : JSString)
| ToggleFaceDetection (checked : bool)
| ChooseFile (file : option string)
| ClickFilter (id : string)
| ClickFont (id : string)
| ToggleOption (id : string) (checked : bool)
| ClickGenerate
| ClickBack.

(** Which controls are rendered and enabled: the form only in [FormView],
    the back button only in [PosterView]; the detection checkbox is disabled
    while an image is processed (line 278), the generate button while name
    or image is missing (line 368); the selector buttons and the option
    checkboxes carry the identifiers of their tables. *)
Definition enabled (a : AppState) (ev : Event) : bool :=
  match render a, ev with
  | PosterView, ClickBack => true
  | PosterView, _ => false
  | FormView, ChangeName _ => true
  | FormView, ChangeLocation _ => true
  | FormView, ToggleFaceDetection _ => negb (isProcessingImage a)
  | FormView, ChooseFile _ => true
  | FormView, ClickFilter i => Selectors.member i Selectors.filterIds
  | FormView, ClickFont i => Selectors.member i Selectors.fontIds
  | FormView, ToggleOption i _ => Selectors.member i (Panel.toggleIds (selectedFilter a))
  | FormView, ClickGenerate => nonEmpty (name a) && truthy (selectedImage a)
  | FormView, ClickBack => false
  end.

Definition handle (w : World) (ev : Event) (a : AppState) (s : State)
  : AppState * State :=
  match ev with
  | ChangeName v => (setName v a, s)
  | ChangeLocation v => (setLocation v a, s)
  | ToggleFaceDetection checked => handleFaceDetectionToggle w checked a s
  | ChooseFile file => handleImageUpload w file a s
  | ClickFilter i => (setSelectedFilter i a, s)
  | ClickFont i => (setSelectedFont i a, s)
  | ToggleOption i checked => (handleCustomOptionChange i checked a, s)
  | ClickGenerate => (handleGeneratePoster a, s)
  | ClickBack => (handleReset a, s)
  end.

(** A session: the events in order; an event on a control that is not there
    or is disabled does nothing. *)
Fixpoint session (w : World) (events : list Event) (a : AppState) (s : State)
  : AppState * State :=
  match events with
  | [] => (a, s)
  | ev :: rest =>
      if enabled a ev
      then let '(a', s') := handle w ev a s in session w rest a' s'
      else session w rest a s
  end.

(** The five properties [PosterGenerator] reads from [customOptions]. *)
Definition optionKeys : list string :=
  [ "showBorder"; "showReward"; "showCornerDecorations"; "showSubtitle";
    "showBottomText" ].

(** What every state of a session satisfies. *)
Definition wellFormed (a : AppState) : Prop :=
  (showPoster a = true -> nonEmpty (name a) = true /\ truthy (selectedImage a) = true) /\
  In (selectedFilter a) Selectors.filterIds /\
  In (selectedFont a) Selectors.fontIds /\
  map fst (customOptions a) = optionKeys /\
  isProcessingImage a = false.

(** The image and the detection status a handler ends with. *)
Definition chosenImage (w : World) (enabled : bool) (image : string) (s : State)
  : string * option bool :=
  if enabled then
    match fst (processImageWithFaceDetection w image s) with
    | Resolved (mkResult processed detected _) => (processed, Some detected)
    | Rejected _ => (image, Some false)
    end
  else (image, None).

End App.

(** ** PosterGenerator.tsx *)

Module Poster.
Import App.

(** Lines 69-82. *)
Definition getFontFamily (font : string) : string :=
  if String.eqb font "western" then "Impact, Haettenschweiler, sans-serif"
  else if String.eqb font "oldstyle" then "Georgia, serif"
  else if String.eqb font "display" then "Courier New, monospace"
  else if String.eqb font "decorative" then "Copperplate, Papyrus, fantasy"
  else "serif".

Record FilterStyles : Type := mkStyles {
  borderColor : string;
  bgColor : string;
  textColor : string;
  imageFilter : string;
  accentColor : string;
  headerText : string;
  subtitleLabel : string;
  bottomNotice : string;
  bottomDetail : string
}.

(** Lines 89-188. *)
Definition getFilterStyles (filter : string) : FilterStyles :=
  if String.eqb filter "vintage" then
    mkStyles "border-orange-900" "bg-amber-50" "text-orange-950"
      "sepia(80%) contrast(110%)" "bg-orange-900" "WANTED" "LAST SEEN IN"
      "APPROACH WITH CAUTION"
      "Contact your local Sheriff's office with any information"
  else if String.eqb filter "reward" then
    mkStyles "border-red-900" "bg-red-50" "text-red-950"
      "contrast(120%) brightness(90%)" "bg-red-900" "WANTED" "LAST SEEN IN"
      "WANTED DEAD OR ALIVE"
      "Contact your local Sheriff's office with any information"
  else if String.eqb filter "sheriff" then
    mkStyles "border-yellow-800" "bg-yellow-50" "text-yellow-950"
      "contrast(115%) saturate(110%)" "bg-yellow-700" "OFFICIAL NOTICE" "LOCATION"
      "By Order of the Sheriff"
      "Contact the Sheriff's office for more information"
  else if String.eqb filter "saloon" then
    mkStyles "border-green-900" "bg-green-50" "text-green-950"
      "saturate(120%)" "bg-green-800" "LIVE ENTERTAINMENT" "PERFORMING AT"
      "Join Us Tonight!"
      "Reserved seating available - Don't miss out!"
  else if String.eqb filter "landoffer" then
    mkStyles "border-blue-900" "bg-blue-50" "text-blue-950"
      "contrast(110%)" "bg-blue-800" "LAND AVAILABLE" "LOCATED IN"
      "Prime Property - Inquire Within"
      "Contact the local land office for more details"
  else if String.eqb filter "showbill" then
    mkStyles "border-red-900" "bg-red-100" "text-red-950"
      "saturate(130%) contrast(110%)" "bg-red-700" "SPECTACULAR SHOW" "PERFORMING AT"
      "One Night Only!"
      "Reserved seating available - Don't miss out!"
  else if String.eqb filter "travel" then
    mkStyles "border-slate-800" "bg-slate-100" "text-slate-950"
      "contrast(105%)" "bg-slate-700" "TRAVEL IN STYLE" "ROUTE"
      "Book Your Journey Today"
      "Book tickets at the station office"
  else
    mkStyles "border-amber-900" "bg-amber-50" "text-amber-950"
      "none" "bg-amber-900" "WANTED" "LAST SEEN IN"
      "APPROACH WITH CAUTION"
      "Contact your local Sheriff's office with any information".

(** Reading a toggle in JSX: [customOptions.showReward && ...] renders the
    element only for the value [true]. *)
Definition isOn (key : string) (customOptions : Options) : bool :=
  match Panel.ownProperty key customOptions with
  | Some true => true
  | _ => false
  end.

(** Line 249: the reward banner. *)
Definition showsRewardBanner (customOptions : Options) (filter : string) : bool :=
  isOn "showReward" customOptions &&
  (String.eqb filter "reward" || String.eqb filter "classic"
   || String.eqb filter "vintage").

(** Line 284: the subtitle box. *)
Definition showsSubtitle (customOptions : Options) (location : JSString) : bool :=
  isOn "showSubtitle" customOptions && nonEmpty location.

(** The code units matched by [\s]: the white space and line terminator
    characters of ECMAScript. *)
Definition isWhiteSpace (c : N) : bool :=
  ((9 <=? c) && (c <=? 13)             (* TAB, LF, VT, FF, CR *)
   || (c =? 32) || (c =? 160)          (* space, no-break space *)
   || (c =? 5760)                      (* U+1680 *)
   || ((8192 <=? c) && (c <=? 8202))   (* U+2000 .. U+200A *)
   || (c =? 8232) || (c =? 8233)       (* U+2028, U+2029 *)
   || (c =? 8239) || (c =? 8287)       (* U+202F, U+205F *)
   || (c =? 12288) || (c =? 65279))%N. (* U+3000, U+FEFF *)

Definition underscore : N := 95.

(** A code unit that [\s] does not match. *)
Definition clean (c : N) : Prop := isWhiteSpace c = false.

(** [s.replace(/\s+/g, '_')]: every maximal run of white space becomes one
    underscore.  [inRun] tells that the previous code unit was white space,
    so that the run has its underscore already. *)
Fixpoint replaceRuns (inRun : bool) (s : JSString) : JSString :=
  match s with
  | [] => []
  | c :: rest =>
      if isWhiteSpace c then
        if inRun then replaceRuns true rest
        else underscore :: replaceRuns true rest
      else c :: replaceRuns false rest
  end.

Definition replaceWhiteSpace (s : JSString) : JSString := replaceRuns false s.

Definition codeUnits (s : string) : JSString :=
  map (fun a => N.of_nat (Ascii.nat_of_ascii a)) (list_ascii_of_string s).

(** Line 54: the template literal. *)
Definition downloadName (name : JSString) : JSString :=
  (replaceWhiteSpace name ++ codeUnits "_poster.png")%list.







End Poster.

(** * Properties *)

(** ** Crop geometry *)

Module GeometryFacts.
Import Geometry.

Local Open Scope Q_scope.

(** Replace the [Qmax] and [Qmin] of the goal, innermost first, by variables
    constrained by their specifications, write halves as products, and split
    the cases. *)
Ltac no_minmax t :=
  lazymatch t with
  | context [Qmax _ _] => fail
  | context [Qmin _ _] => fail
  | _ => idtac
  end.

Ltac minmax_cases :=
  repeat match goal with
    | |- context [Qmax ?a ?b] =>
        no_minmax a; no_minmax b;
        generalize (Q.max_spec a b); generalize (Qmax a b); intros ? ?
    | |- context [Qmin ?a ?b] =>
        no_minmax a; no_minmax b;
        generalize (Q.min_spec a b); generalize (Qmin a b); intros ? ?
    end;
  repeat match goal with
    | H : _ \/ _ |- _ => destruct H
    | H : _ /\ _ |- _ => destruct H
    end;
  unfold Qdiv in *; change (/ 2) with (1 # 2) in *.

(** One axis of the clamp: origin [max 0 (c - size/2)], extent
    [min size (limit - origin)]. *)
Lemma clamp_axis_inside (c size limit : Q) :
  0 < size -> 0 < limit -> c - size / 2 < limit ->
  0 <= Qmax 0 (c - size / 2) /\
  Qmax 0 (c - size / 2) + Qmin size (limit - Qmax 0 (c - size / 2)) <= limit /\
  0 < Qmin size (limit - Qmax 0 (c - size / 2)).
Proof.
  intros Hsize Hlimit Hstart.
  minmax_cases; repeat split; lra.
Qed.


Lemma cropSize_pos (b : Box) (padding : Q) :
  0 < width b -> 0 < height b -> 1 <= padding -> 0 < spec_cropSize b padding.
Proof.
  intros Hw Hh Hp. unfold spec_cropSize.
  assert (Hmax : 0 < Qmax (width b) (height b)).
  { apply Q.max_lt_iff. now left. }
  revert Hmax. generalize (Qmax (width b) (height b)). intros m Hmax.
  nra.
Qed.

(** The code and the reference definition are the same function. *)
Lemma cropGeometry_spec (b : Box) (imgW imgH padding : Q) :
  cropGeometry b imgW imgH padding = spec_computeCrop b imgW imgH padding.
Proof. reflexivity. Qed.


(** The same scenario in double precision, with the double nearest to 1.8 as
    padding: [160 * 1.8] rounds to exactly 288, so the doubles agree with
    the rationals. *)
Lemma scenario_crop_binary64 :
  Binary64.cropGeometry 400 300 120 160 1000 800 0x1.ccccccccccccdp+0
  = (316%float, 236%float, 288%float, 288%float).
Proof. vm_compute. reflexivity. Qed.

(** The corner scenario of the specification: clamped at the origin. *)
Lemma corner_crop :
  crop_eq (cropGeometry (mkBox 10 10 100 100) 1000 800 default_padding)
          (mkCrop 0 0 180 180).
Proof. unfold crop_eq. vm_compute. intuition discriminate. Qed.



(** The containment of the crop in exact arithmetic: over the rationals, a
    box inside a W x H image and a padding of at least 1 give a rectangle
    with non-negative origin and positive extents that ends inside the
    image.  The doubles of the code satisfy less: see [Binary64Facts]. *)
Lemma crop_containment_exact (b : Box) (W H padding : Q) :
  0 <= x b -> 0 <= y b -> 0 < width b -> 0 < height b ->
  x b + width b <= W -> y b + height b <= H -> 1 <= padding ->
  let r := cropGeometry b W H padding in
  0 <= cropX r /\ 0 <= cropY r /\
  cropX r + cropWidth r <= W /\ cropY r + cropHeight r <= H /\
  0 < cropWidth r /\ 0 < cropHeight r.
Proof.
  intros Hx Hy Hw Hh HxW HyH Hp.
  rewrite cropGeometry_spec. cbn [spec_computeCrop cropX cropY cropWidth cropHeight].
  pose proof (cropSize_pos b padding Hw Hh Hp) as Hsize.
  assert (HX : spec_faceCenterX b - spec_cropSize b padding / 2 < W).
  { unfold spec_faceCenterX. revert Hsize. generalize (spec_cropSize b padding).
    intros size Hsize. unfold Qdiv. change (/ 2) with (1 # 2). lra. }
  assert (HY : spec_faceCenterY b - spec_cropSize b padding / 2 < H).
  { unfold spec_faceCenterY. revert Hsize. generalize (spec_cropSize b padding).
    intros size Hsize. unfold Qdiv. change (/ 2) with (1 # 2). lra. }
  assert (HW : 0 < W) by lra.
  assert (HH : 0 < H) by lra.
  destruct (clamp_axis_inside _ _ _ Hsize HW HX) as (? & ? & ?).
  destruct (clamp_axis_inside _ _ _ Hsize HH HY) as (? & ? & ?).
  repeat split; assumption.
Qed.

End GeometryFacts.

(** ** The crop in doubles *)

Module Binary64Facts.
Import Binary64.

Local Open Scope float_scope.

(** *** Comparison of doubles *)












(** *** Math.max and Math.min *)













End Binary64Facts.

(** ** The model gateway: loadModels *)

Module GatewayFacts.

Ltac unfold_async :=
  unfold processImageWithFaceDetection, detectFace, callDetectSingleFace,
    loadModels, importFaceapi, fetchModel, tryCatch, bind, get, modify, await, ret, throw, fallback in *.

(** Once the flag is set, a call returns at once and touches nothing. *)
Lemma loadModels_loaded (w : World) (s : State) :
  modelsLoaded s = true -> loadModels w s = (Resolved tt, s).
Proof. intros Hl. unfold_async. now rewrite Hl. Qed.

(** A call that finds the flag unset and whose import (when one is needed)
    and fetch both succeed sets the flag after exactly one fetch. *)
Lemma loadModels_success (w : World) (s : State) :
  modelsLoaded s = false ->
  faceapi s = true \/ import_faceapi w (imports s) = Resolved tt ->
  loadFromUri w (fetches s) MODEL_URL = Resolved tt ->
  exists s',
    loadModels w s = (Resolved tt, s') /\
    modelsLoaded s' = true /\ faceapi s' = true /\
    fetches s' = S (fetches s) /\
    imports s' = (if faceapi s then imports s else S (imports s)).
Proof.
  intros Hl Hi Hf. unfold_async. rewrite Hl.
  destruct (faceapi s) eqn:Hfa; cbn.
  - rewrite Hf. cbn. eexists; repeat split; cbn; auto.
  - destruct Hi as [Hi | Hi]; [discriminate|].
    rewrite Hi. cbn. rewrite Hf. cbn. eexists; repeat split.
Qed.

(** A resolved call leaves the flag set. *)
Lemma loadModels_resolved (w : World) (s s' : State) (u : unit) :
  loadModels w s = (Resolved u, s') -> modelsLoaded s' = true.
Proof.
  destruct u. unfold_async. destruct (modelsLoaded s) eqn:Hl; cbn.
  - intros [= <-]. exact Hl.
  - destruct (faceapi s); cbn;
      [|destruct (import_faceapi w (imports s)); cbn; [|discriminate]];
      (destruct (loadFromUri w (fetches s) MODEL_URL); cbn; [|discriminate]);
      intros [= <-]; reflexivity.
Qed.

(** A rejected call: the flag was and stays unset, the error is the one the
    import or the fetch raised, and [faceapi] is set exactly when the import
    was not what failed. *)
Lemma loadModels_rejected (w : World) (s s' : State) (e : Error) :
  loadModels w s = (Rejected e, s') ->
  modelsLoaded s = false /\ modelsLoaded s' = false /\
  ((faceapi s = false /\ import_faceapi w (imports s) = Rejected e /\
    faceapi s' = false /\ imports s' = S (imports s) /\ fetches s' = fetches s)
   \/
   (loadFromUri w (fetches s) MODEL_URL = Rejected e /\
    faceapi s' = true /\ fetches s' = S (fetches s))).
Proof.
  unfold_async. destruct (modelsLoaded s) eqn:Hl; cbn; [discriminate|].
  destruct (faceapi s) eqn:Hfa; cbn.
  - destruct (loadFromUri w (fetches s) MODEL_URL) eqn:Hf; cbn; [discriminate|].
    intros [= <- <-]. cbn. auto 10.
  - destruct (import_faceapi w (imports s)) eqn:Hi; cbn.
    + destruct (loadFromUri w (fetches s) MODEL_URL) eqn:Hf; cbn; [discriminate|].
      intros [= <- <-]. cbn. auto 10.
    + intros [= <- <-]. cbn. auto 10.
Qed.

(** No call ever clears the flag or the module reference. *)
Lemma loadModels_monotone (w : World) (s : State) :
  (modelsLoaded s = true -> modelsLoaded (snd (loadModels w s)) = true) /\
  (faceapi s = true -> faceapi (snd (loadModels w s)) = true).
Proof.
  split; intros Hs.
  - now rewrite loadModels_loaded.
  - unfold_async. cbv beta.
    destruct (modelsLoaded s); cbn; [exact Hs|]. rewrite Hs. cbn.
    destruct (loadFromUri w (fetches s) MODEL_URL); cbn; exact Hs.
Qed.

(** After the flag is set, any number of further calls in any world resolve
    and leave the state as it is. *)
Lemma loadModelsTimes_loaded (w : World) (n : nat) (s : State) :
  modelsLoaded s = true ->
  loadModelsTimes w n s = (repeat (Resolved tt) n, s).
Proof.
  intros Hl. induction n as [|n IH]; cbn [loadModelsTimes repeat]; [reflexivity|].
  rewrite (loadModels_loaded w s Hl), IH. reflexivity.
Qed.

End GatewayFacts.

(** ** The pipeline: detectFace, cropImageToFace, processImageWithFaceDetection *)

Module PipelineFacts.
Import GatewayFacts.

(** [detectFace] by cases on how the model load and the inference settle. *)
Lemma detectFace_cases (w : World) (img : HTMLImageElement) (s : State) :
  detectFace w img s =
  match loadModels w s with
  | (Resolved _, s1) =>
      if faceapi s1 then
        match detectSingleFace w img detectorOptions with
        | Resolved found => (Resolved found, s1)
        | Rejected _ => (Resolved None, console_write "Error detecting face:" s1)
        end
      else (Resolved None, console_write "Error detecting face:" s1)
  | (Rejected _, s1) => (Resolved None, console_write "Error detecting face:" s1)
  end.
Proof.
  unfold detectFace, callDetectSingleFace, tryCatch, bind, await, ret, modify, get, throw.
  destruct (loadModels w s) as [[u | e] s1]; [|reflexivity].
  destruct (faceapi s1); [|reflexivity].
  destruct (detectSingleFace w img detectorOptions); reflexivity.
Qed.

Lemma detectFace_resolves (w : World) (img : HTMLImageElement) (s : State) :
  exists found s1, detectFace w img s = (Resolved found, s1).
Proof.
  rewrite detectFace_cases.
  destruct (loadModels w s) as [[u | e] s1]; [|eauto].
  destruct (faceapi s1); [|eauto].
  destruct (detectSingleFace w img detectorOptions); eauto.
Qed.

(** [cropImageToFace] rejects exactly when the image does not load or no 2d
    context is available. *)
Lemma cropImageToFace_rejects (w : World) (url : string) (d : FaceDetection) (p : Q) :
  loadImage w InCrop url = None \/ getContext2d w = false ->
  exists e, cropImageToFace w url d p = Rejected e.
Proof.
  unfold cropImageToFace. intros [Hload | Hctx].
  - rewrite Hload. eauto.
  - rewrite Hctx. destruct (loadImage w InCrop url); eauto.
Qed.

Lemma cropImageToFace_resolved (w : World) (url : string) (d : FaceDetection)
    (p : Q) (out : string) :
  cropImageToFace w url d p = Resolved out ->
  exists img,
    loadImage w InCrop url = Some img /\ getContext2d w = true /\
    let r := Geometry.cropGeometry (box d)
               (inject_Z (img_width img)) (inject_Z (img_height img)) p in
    out = toDataURL w (drawCrop img r) "image/jpeg" (95 # 100).
Proof.
  unfold cropImageToFace.
  destruct (loadImage w InCrop url) as [img|]; [|discriminate].
  destruct (getContext2d w); [|discriminate].
  intros [= <-]. exists img. auto.
Qed.

(** [processImageWithFaceDetection] by cases on the decode, the detection and
    the crop. *)
Lemma process_cases (w : World) (url : string) (s : State) :
  processImageWithFaceDetection w url s =
  match loadImage w InProcess url with
  | None => (Rejected "Failed to load image", s)
  | Some img =>
      match detectFace w img s with
      | (Resolved (Some d), s1) =>
          match cropImageToFace w url d default_padding with
          | Resolved cropped => (Resolved (mkResult cropped true (Some d)), s1)
          | Rejected _ =>
              (Resolved (fallback url), console_write "Error processing image:" s1)
          end
      | (Resolved None, s1) => (Resolved (fallback url), s1)
      | (Rejected _, s1) =>
          (Resolved (fallback url), console_write "Error processing image:" s1)
      end
  end.
Proof.
  unfold processImageWithFaceDetection.
  destruct (loadImage w InProcess url) as [img|]; [|reflexivity].
  unfold tryCatch, bind, await, ret, modify.
  destruct (detectFace w img s) as [[[d|] | e] s1]; try reflexivity.
  destruct (cropImageToFace w url d default_padding); reflexivity.
Qed.



(** A detector that reports no face makes [detectFace] resolve with null,
    whether or not the model could be loaded. *)
Lemma detectFace_stub_none (w : World) (img : HTMLImageElement) (s : State) :
  detectSingleFace w img detectorOptions = Resolved None ->
  fst (detectFace w img s) = Resolved None.
Proof.
  intros Hstub. rewrite detectFace_cases, Hstub.
  destruct (loadModels w s) as [[u | e] s1]; [|reflexivity].
  destruct (faceapi s1); reflexivity.
Qed.

(** A rejected model load and a throwing inference both end in the catch
    block of [detectFace]. *)
Lemma detectFace_load_failure (w : World) (img : HTMLImageElement) (s : State) :
  (exists e, fst (loadModels w s) = Rejected e) ->
  fst (detectFace w img s) = Resolved None.
Proof.
  intros [e He]. rewrite detectFace_cases.
  destruct (loadModels w s) as [[u | e'] s1]; cbn in He; [discriminate|reflexivity].
Qed.

Lemma detectFace_inference_failure (w : World) (img : HTMLImageElement) (s : State) :
  (exists e, detectSingleFace w img detectorOptions = Rejected e) ->
  fst (detectFace w img s) = Resolved None.
Proof.
  intros [e He]. rewrite detectFace_cases, He.
  destruct (loadModels w s) as [[u | e'] s1]; [|reflexivity].
  destruct (faceapi s1); reflexivity.
Qed.

(** C5. [detectFace] never rejects: it always resolves, and when the model
    load (import or fetch) rejects or the inference throws it resolves with
    null, as if no face had been found. *)
Theorem detectFace_never_rejects (w : World) (img : HTMLImageElement) (s : State) :
  (exists found, fst (detectFace w img s) = Resolved found) /\
  ((exists e, fst (loadModels w s) = Rejected e) ->
   fst (detectFace w img s) = Resolved None) /\
  ((exists e, detectSingleFace w img detectorOptions = Rejected e) ->
   fst (detectFace w img s) = Resolved None).
Proof.
  split; [|split].
  - destruct (detectFace_resolves w img s) as (found & s1 & H).
    exists found. now rewrite H.
  - apply detectFace_load_failure.
  - apply detectFace_inference_failure.
Qed.

Lemma detectFace_never_rejects_witness :
  (exists e, fst (loadModels Scenarios.flaky_network initial) = Rejected e) /\
  fst (detectFace Scenarios.flaky_network (mkImage Scenarios.png_upload 1000 800) initial)
  = Resolved None.
Proof.
  assert (Hfail : exists e, fst (loadModels Scenarios.flaky_network initial) = Rejected e).
  { exists "Failed to fetch". reflexivity. }
  split; [exact Hfail|].
  destruct (detectFace_never_rejects Scenarios.flaky_network
              (mkImage Scenarios.png_upload 1000 800) initial) as (_ & Hload & _).
  exact (Hload Hfail).
Defined.

(** C4. No-detection passthrough: when the input decodes and the detection
    comes back null (in particular when the detector reports no face), the
    pipeline resolves with the input string itself, [faceDetected] false and
    no detection. *)
Theorem no_detection_passthrough (w : World) (url : string) (s : State)
    (img : HTMLImageElement) :
  loadImage w InProcess url = Some img ->
  detectSingleFace w img detectorOptions = Resolved None \/
  fst (detectFace w img s) = Resolved None ->
  fst (processImageWithFaceDetection w url s) = Resolved (mkResult url false None).
Proof.
  intros Hload Hnone.
  assert (Hd : fst (detectFace w img s) = Resolved None).
  { destruct Hnone as [Hstub | Hd]; [now apply detectFace_stub_none | exact Hd]. }
  rewrite process_cases, Hload.
  destruct (detectFace w img s) as [[[d|] | e] s1]; cbn in Hd; try discriminate.
  reflexivity.
Qed.

Lemma no_detection_passthrough_witness :
  fst (processImageWithFaceDetection Scenarios.reliable Scenarios.png_upload initial)
  = Resolved (mkResult Scenarios.png_upload false None).
Proof.
  apply (no_detection_passthrough Scenarios.reliable Scenarios.png_upload initial
           (mkImage Scenarios.png_upload 1000 800)).
  - reflexivity.
  - left. reflexivity.
Defined.

(** C9. The resolved value carries a third field [detection], and it agrees
    with [faceDetected]: non-null exactly when the flag is true, null exactly
    when it is false. *)
Theorem detection_agrees_with_flag (w : World) (url : string) (s s' : State)
    (r : ProcessingResult) :
  processImageWithFaceDetection w url s = (Resolved r, s') ->
  (detection r <> None <-> faceDetected r = true) /\
  (detection r = None <-> faceDetected r = false).
Proof.
  rewrite process_cases.
  destruct (loadImage w InProcess url) as [img|]; [|discriminate].
  destruct (detectFace w img s) as [[[d|] | e] s1].
  - destruct (cropImageToFace w url d default_padding);
      intros [= <- <-]; cbn; intuition congruence.
  - intros [= <- <-]; cbn; intuition congruence.
  - intros [= <- <-]; cbn; intuition congruence.
Qed.

Lemma detection_agrees_with_flag_witness :
  exists r,
    fst (processImageWithFaceDetection Scenarios.with_face Scenarios.png_upload initial)
    = Resolved r /\
    faceDetected r = true /\ detection r <> None.
Proof.
  destruct (processImageWithFaceDetection Scenarios.with_face Scenarios.png_upload initial)
    as [o s'] eqn:Hrun.
  vm_compute in Hrun.
  injection Hrun as <- <-.
  eexists. split; [reflexivity|].
  split; [reflexivity|].
  eapply (detection_agrees_with_flag Scenarios.with_face Scenarios.png_upload initial).
  - vm_compute. reflexivity.
  - reflexivity.
Defined.

(** C10. On the face-detected path the processed image is what
    [canvas.toDataURL('image/jpeg', 0.95)] returns for the cropped canvas:
    the requested media type and quality are constants, whatever the
    encoding of the input. *)
Theorem face_path_reencodes_jpeg (w : World) (url : string) (s s' : State)
    (r : ProcessingResult) :
  processImageWithFaceDetection w url s = (Resolved r, s') ->
  faceDetected r = true ->
  exists img d,
    loadImage w InCrop url = Some img /\
    detection r = Some d /\
    processedImage r =
      toDataURL w
        (drawCrop img
           (Geometry.cropGeometry (box d) (inject_Z (img_width img))
              (inject_Z (img_height img)) default_padding))
        "image/jpeg" (95 # 100).
Proof.
  rewrite process_cases.
  destruct (loadImage w InProcess url) as [img0|]; [|discriminate].
  destruct (detectFace w img0 s) as [[[d|] | e] s1].
  - destruct (cropImageToFace w url d default_padding) as [out|e] eqn:Hcrop;
      intros [= <- <-]; cbn; [|discriminate].
    intros _. apply cropImageToFace_resolved in Hcrop.
    destruct Hcrop as (img & Hload & _ & Hout).
    exists img, d. auto.
  - intros [= <- <-]; cbn; discriminate.
  - intros [= <- <-]; cbn; discriminate.
Qed.

Lemma face_path_reencodes_jpeg_witness :
  exists r,
    fst (processImageWithFaceDetection Scenarios.with_face Scenarios.png_upload initial)
    = Resolved r /\
    faceDetected r = true /\
    processedImage r = "data:image/jpeg;base64,".
Proof.
  destruct (processImageWithFaceDetection Scenarios.with_face Scenarios.png_upload initial)
    as [o s'] eqn:Hrun.
  pose proof Hrun as Hval. vm_compute in Hval.
  injection Hval as <- <-.
  eexists. split; [reflexivity|]. split; [reflexivity|].
  destruct (face_path_reencodes_jpeg Scenarios.with_face Scenarios.png_upload initial
              _ _ Hrun eq_refl) as (img & d & _ & _ & Hout).
  rewrite Hout. reflexivity.
Defined.

(** When the uploaded bytes are not an image, [img.onerror] fires and the
    promise is rejected: the pipeline does not resolve with the fallback. *)
Lemma undecodable_input_rejects :
  fst (processImageWithFaceDetection Scenarios.undecodable Scenarios.png_upload initial)
  = Rejected "Failed to load image" /\
  fst (processImageWithFaceDetection Scenarios.undecodable Scenarios.png_upload initial)
  <> Resolved (mkResult Scenarios.png_upload false None).
Proof. split; [reflexivity | discriminate]. Qed.

(** C1, as the code has it.  When the input cannot be decoded the promise is
    rejected with "Failed to load image" and the state is untouched.  When
    it decodes, the promise always resolves, and any failure of the model
    load, of the inference, of the second decode or of the canvas context
    makes it resolve with the original string, [faceDetected] false and no
    detection. *)
Theorem process_failure_outcomes (w : World) (url : string) (s : State) :
  (loadImage w InProcess url = None ->
   processImageWithFaceDetection w url s = (Rejected "Failed to load image", s)) /\
  (forall img, loadImage w InProcess url = Some img ->
     (exists r, fst (processImageWithFaceDetection w url s) = Resolved r) /\
     ((exists e, fst (loadModels w s) = Rejected e) \/
      (exists e, detectSingleFace w img detectorOptions = Rejected e) \/
      loadImage w InCrop url = None \/
      getContext2d w = false ->
      fst (processImageWithFaceDetection w url s) = Resolved (mkResult url false None))).
Proof.
  split.
  - intros Hload. now rewrite process_cases, Hload.
  - intros img Hload. rewrite process_cases, Hload. split.
    + destruct (detectFace w img s) as [[[d|] | e] s1]; cbn; eauto.
      destruct (cropImageToFace w url d default_padding); cbn; eauto.
    + intros Hfail.
      pose proof (detectFace_load_failure w img s) as Hgate.
      pose proof (detectFace_inference_failure w img s) as Hinfer.
      destruct Hfail as [Hl | [Hi | Hcrop]].
      * specialize (Hgate Hl).
        destruct (detectFace w img s) as [[[d|] | e] s1]; cbn in Hgate;
          try discriminate; reflexivity.
      * specialize (Hinfer Hi).
        destruct (detectFace w img s) as [[[d|] | e] s1]; cbn in Hinfer;
          try discriminate; reflexivity.
      * destruct (detectFace w img s) as [[[d|] | e] s1]; try reflexivity.
        destruct (cropImageToFace_rejects w url d default_padding Hcrop) as [e He].
        rewrite He. reflexivity.
Qed.

Lemma process_failure_outcomes_witness :
  getContext2d Scenarios.no_canvas = false /\
  fst (processImageWithFaceDetection Scenarios.no_canvas Scenarios.png_upload initial)
  = Resolved (mkResult Scenarios.png_upload false None).
Proof.
  split; [reflexivity|].
  destruct (process_failure_outcomes Scenarios.no_canvas Scenarios.png_upload initial)
    as [_ Hdecoded].
  destruct (Hdecoded (mkImage Scenarios.png_upload 1000 800) eq_refl) as [_ Hfallback].
  apply Hfallback. right. right. right. reflexivity.
Defined.

End PipelineFacts.

(** ** Readiness of the model across calls *)

Module ReadinessFacts.
Import GatewayFacts PipelineFacts Interleaving.

(** A call that finds the flag unset starts an import when the module is not
    there yet, and a model fetch when it is. *)
Lemma loadModels_attempts (w : World) (s : State) :
  modelsLoaded s = false ->
  if faceapi s
  then fetches (snd (loadModels w s)) = S (fetches s)
  else imports (snd (loadModels w s)) = S (imports s).
Proof.
  intros Hl. unfold_async. cbv beta. rewrite Hl.
  destruct (faceapi s); cbn.
  - destruct (loadFromUri w (fetches s) MODEL_URL); reflexivity.
  - destruct (import_faceapi w (imports s)); cbn; [|reflexivity].
    destruct (loadFromUri w (fetches s) MODEL_URL); reflexivity.
Qed.

(** Resuming a call until it settles, with nobody scheduled in between, is
    the direct-style [loadModels]. *)
Lemma runAlone_loadModels (w : World) (s : State) :
  runAlone w s = (Settled (fst (loadModels w s)), snd (loadModels w s)).
Proof.
  unfold runAlone, resume, startFetch, caught. unfold_async. cbv beta.
  destruct (modelsLoaded s); cbn; [reflexivity|].
  destruct (faceapi s); cbn.
  - destruct (loadFromUri w (fetches s) MODEL_URL) as [[]|]; reflexivity.
  - destruct (import_faceapi w (imports s)) as [[]|]; cbn; [|reflexivity].
    destruct (loadFromUri w (fetches s) MODEL_URL) as [[]|]; reflexivity.
Qed.

(** A caller that enters while the flag is still unset starts an import or a
    fetch of its own, whatever the callers already in flight are waiting for. *)
Lemma entry_while_loading (w : World) (s : State) :
  modelsLoaded s = false ->
  resume w AtEntry s =
    if faceapi s
    then (AwaitingFetch (fetches s), count_fetch s)
    else (AwaitingImport (imports s), count_import s).
Proof. intros Hl. unfold resume, startFetch. rewrite Hl. now destruct (faceapi s). Qed.

(** Two callers scheduled one after the other share one fetch. *)
Lemma sequential_callers_fetch_once :
  runSchedule Scenarios.reliable [0; 0; 0; 1]%nat [AtEntry; AtEntry] initial
  = ([Settled (Resolved tt); Settled (Resolved tt)],
     mkState true true 1 1 ["Face detection models loaded successfully"]).
Proof. reflexivity. Qed.




(** C8. A failed load is not cached.  With the flag unset: when the import
    is needed and fails, [loadModels] rejects with the import's error,
    having counted the import and logged the error and nothing else; when
    the import is not needed or succeeds and the fetch fails, it rejects
    with the fetch's error, having kept the module, counted the fetch and
    logged the error.  After any rejection the flag is still unset, the
    error is the import's or the fetch's, the next call starts a new import
    (when the module is still missing) or a new fetch (when it is there),
    and it resolves and sets the flag when that attempt succeeds. *)
Theorem failed_load_not_cached (w : World) (s : State) (e : Error) :
  modelsLoaded s = false ->
  (faceapi s = false -> import_faceapi w (imports s) = Rejected e ->
   loadModels w s =
   (Rejected e,
    console_write "Error loading face detection models:" (count_import s))) /\
  (faceapi s = true \/ import_faceapi w (imports s) = Resolved tt ->
   loadFromUri w (fetches s) MODEL_URL = Rejected e ->
   loadModels w s =
   (Rejected e,
    console_write "Error loading face detection models:"
      (count_fetch (if faceapi s then s else set_faceapi (count_import s))))) /\
  (forall s1, loadModels w s = (Rejected e, s1) ->
     modelsLoaded s1 = false /\
     (import_faceapi w (imports s) = Rejected e \/
      loadFromUri w (fetches s) MODEL_URL = Rejected e) /\
     (forall w' : World,
        if faceapi s1
        then fetches (snd (loadModels w' s1)) = S (fetches s1)
        else imports (snd (loadModels w' s1)) = S (imports s1)) /\
     (forall w' : World,
        faceapi s1 = true \/ import_faceapi w' (imports s1) = Resolved tt ->
        loadFromUri w' (fetches s1) MODEL_URL = Resolved tt ->
        exists s2, loadModels w' s1 = (Resolved tt, s2) /\ modelsLoaded s2 = true)).
Proof.
  intros Hl. split; [|split].
  - intros Hfa Hi. unfold_async. cbv beta. rewrite Hl. cbn.
    rewrite Hfa. cbn. rewrite Hi. reflexivity.
  - intros Hi Hf. unfold_async. cbv beta. rewrite Hl. cbn.
    destruct (faceapi s) eqn:Hfa; cbn.
    + rewrite Hf. reflexivity.
    + destruct Hi as [Hi | Hi]; [discriminate Hi|].
      rewrite Hi. cbn. rewrite Hf. reflexivity.
  - intros s1 Hrej.
    destruct (loadModels_rejected w s s1 e Hrej) as (_ & Hl1 & Hwhy).
    split; [exact Hl1|]. split; [|split].
    + destruct Hwhy as [(_ & Hi & _) | (Hf & _)]; auto.
    + intros w'. now apply loadModels_attempts.
    + intros w' Hi Hf.
      destruct (loadModels_success w' s1 Hl1 Hi Hf) as (s2 & Hrun & Hl2 & _).
      exists s2. auto.
Qed.

Lemma failed_load_not_cached_witness :
  exists s1 s2,
    loadModels Scenarios.flaky_network initial = (Rejected "Failed to fetch", s1) /\
    modelsLoaded s1 = false /\
    loadModels Scenarios.flaky_network s1 = (Resolved tt, s2) /\
    modelsLoaded s2 = true /\ fetches s2 = 2%nat.
Proof.
  destruct (failed_load_not_cached Scenarios.flaky_network initial "Failed to fetch"
              eq_refl) as (_ & Hfetch & Hafter).
  pose proof (Hfetch (or_intror eq_refl) eq_refl) as Hfirst.
  destruct (Hafter _ Hfirst) as (Hflag & _ & _ & Hretry).
  destruct (Hretry Scenarios.flaky_network (or_introl eq_refl) eq_refl)
    as (s2 & Hsecond & Hl2).
  eexists. exists s2.
  split; [exact Hfirst|]. split; [exact Hflag|].
  split; [exact Hsecond|]. split; [exact Hl2|].
  vm_compute in Hsecond. injection Hsecond as <-. reflexivity.
Defined.

(** C7. Two callers that overlap: the first is suspended on its import when
    the second enters; the flag is still unset, so the second starts an
    import and then a fetch of its own.  Both resolve, after two fetches. *)
Theorem overlapping_callers_fetch_twice :
  let run := runSchedule Scenarios.reliable [0; 1; 0; 1; 0; 1]%nat
               [AtEntry; AtEntry] initial in
  fst run = [Settled (Resolved tt); Settled (Resolved tt)] /\
  imports (snd run) = 2%nat /\
  fetches (snd run) = 2%nat /\
  modelsLoaded (snd run) = true.
Proof. cbn. auto. Qed.

End ReadinessFacts.

(** ** More on the pipeline *)

Module PipelineExtras.
Import GatewayFacts PipelineFacts.

(** How [loadModels] moves the state, in one statement: the counters grow by
    at most one, and flag and module reference are never cleared. *)
Lemma loadModels_footprint (w : World) (s : State) :
  let s' := snd (loadModels w s) in
  (fetches s <= fetches s' <= S (fetches s))%nat /\
  (imports s <= imports s' <= S (imports s))%nat /\
  (modelsLoaded s = true -> s' = s) /\
  (faceapi s = true -> faceapi s' = true) /\
  (modelsLoaded s' = true -> faceapi s' = true \/ s' = s).
Proof.
  unfold_async. cbv beta.
  assert (Hfin : forall P : Prop, (false = true -> P)) by (intros P H; discriminate H).
  destruct (modelsLoaded s) eqn:Hl; cbn.
  - repeat split; auto; lia.
  - destruct (faceapi s) eqn:Hfa; cbn.
    + destruct (loadFromUri w (fetches s) MODEL_URL); cbn; rewrite ?Hl, ?Hfa;
        repeat split; auto; lia.
    + destruct (import_faceapi w (imports s)); cbn.
      * destruct (loadFromUri w (fetches s) MODEL_URL); cbn; rewrite ?Hl, ?Hfa;
          repeat split; auto; lia.
      * rewrite ?Hl, ?Hfa. repeat split; auto; lia.
Qed.

Lemma loadModels_consistent (w : World) (s : State) :
  consistent s -> consistent (snd (loadModels w s)).
Proof.
  intros Hc Hl'.
  destruct (loadModels_footprint w s) as (_ & _ & _ & _ & Hset).
  destruct (Hset Hl') as [Hfa | Hsame]; [exact Hfa|].
  rewrite Hsame in *. auto.
Qed.

(** The state after [detectFace] is the state after [loadModels], up to the
    console. *)
Lemma detectFace_state (w : World) (img : HTMLImageElement) (s : State) :
  let s1 := snd (loadModels w s) in
  let s' := snd (detectFace w img s) in
  faceapi s' = faceapi s1 /\ modelsLoaded s' = modelsLoaded s1 /\
  imports s' = imports s1 /\ fetches s' = fetches s1.
Proof.
  cbv zeta. rewrite detectFace_cases.
  destruct (loadModels w s) as [[u | e] s1]; cbn; [|auto].
  destruct (faceapi s1) eqn:Hfa; cbn; [|auto].
  destruct (detectSingleFace w img detectorOptions); cbn; auto.
Qed.

(** The state after a pipeline run that decoded its input is the state after
    [detectFace], up to the console; a run that did not is the state before. *)
Lemma process_state (w : World) (url : string) (s : State) :
  let s' := snd (processImageWithFaceDetection w url s) in
  match loadImage w InProcess url with
  | None => s' = s
  | Some img =>
      let s1 := snd (detectFace w img s) in
      faceapi s' = faceapi s1 /\ modelsLoaded s' = modelsLoaded s1 /\
      imports s' = imports s1 /\ fetches s' = fetches s1
  end.
Proof.
  cbv zeta. rewrite process_cases.
  destruct (loadImage w InProcess url) as [img|]; [|reflexivity].
  destruct (detectFace w img s) as [[[d|] | e] s1]; cbn; auto.
  destruct (cropImageToFace w url d default_padding); cbn; auto.
Qed.

(** X5. The flag implies the module reference.  This holds in the initial
    state and is kept by [loadModels], [detectFace] and
    [processImageWithFaceDetection] in every world; so after a model load
    that resolved, [detectFace] never trips over an undefined [faceapi]: its
    answer is the detector's, and null only when the detector throws. *)
Theorem flag_implies_module (w : World) (s : State) :
  consistent initial /\
  (consistent s ->
   consistent (snd (loadModels w s)) /\
   (forall img, consistent (snd (detectFace w img s))) /\
   (forall url, consistent (snd (processImageWithFaceDetection w url s))) /\
   (forall img u s1, loadModels w s = (Resolved u, s1) ->
      fst (detectFace w img s) =
      match detectSingleFace w img detectorOptions with
      | Resolved found => Resolved found
      | Rejected _ => Resolved None
      end)).
Proof.
  split; [intros H; discriminate H|].
  intros Hc.
  pose proof (loadModels_consistent w s Hc) as Hload.
  assert (Hdetect : forall img, consistent (snd (detectFace w img s))).
  { intros img. destruct (detectFace_state w img s) as (Hfa & Hl & _).
    unfold consistent in *. rewrite Hfa, Hl. exact Hload. }
  split; [exact Hload|]. split; [exact Hdetect|]. split.
  - intros url. pose proof (process_state w url s) as Hp. cbv zeta in Hp.
    destruct (loadImage w InProcess url) as [img|].
    + destruct Hp as (Hfa & Hl & _). unfold consistent in *.
      rewrite Hfa, Hl. apply Hdetect.
    + rewrite Hp. exact Hc.
  - intros img u s1 Hrun. rewrite detectFace_cases, Hrun.
    assert (Hfa : faceapi s1 = true).
    { unfold consistent in Hload. rewrite Hrun in Hload. cbn in Hload.
      apply Hload. apply (loadModels_resolved w s s1 u Hrun). }
    rewrite Hfa. destruct (detectSingleFace w img detectorOptions); reflexivity.
Qed.

Lemma flag_implies_module_witness :
  fst (detectFace Scenarios.with_face (mkImage Scenarios.png_upload 1000 800) initial)
  = Resolved (Some Scenarios.scenario_face).
Proof.
  destruct (flag_implies_module Scenarios.with_face initial) as [Hinit Hkeep].
  destruct (Hkeep Hinit) as (_ & _ & _ & Hanswer).
  rewrite (Hanswer (mkImage Scenarios.png_upload 1000 800) tt
             (snd (loadModels Scenarios.with_face initial)) eq_refl).
  reflexivity.
Defined.

(** X6. One pipeline run starts at most one dynamic import and at most one
    model fetch, never clears the flag, and starts neither when its input
    does not decode. *)
Theorem process_starts_at_most_one_fetch (w : World) (url : string) (s : State) :
  let s' := snd (processImageWithFaceDetection w url s) in
  (fetches s <= fetches s' <= S (fetches s))%nat /\
  (imports s <= imports s' <= S (imports s))%nat /\
  (modelsLoaded s = true -> modelsLoaded s' = true) /\
  (loadImage w InProcess url = None -> s' = s).
Proof.
  cbv zeta. pose proof (process_state w url s) as Hp. cbv zeta in Hp.
  destruct (loadImage w InProcess url) as [img|].
  - destruct Hp as (_ & Hl & Hi & Hf).
    destruct (detectFace_state w img s) as (_ & Hl1 & Hi1 & Hf1).
    destruct (loadModels_footprint w s) as (Hfb & Hib & Hsame & _).
    rewrite Hl, Hi, Hf, Hl1, Hi1, Hf1.
    repeat split; try lia; try discriminate.
    intros Hloaded. now rewrite (Hsame Hloaded).
  - rewrite Hp. repeat split; auto; lia.
Qed.

Lemma process_starts_at_most_one_fetch_witness :
  snd (processImageWithFaceDetection Scenarios.undecodable Scenarios.png_upload initial)
  = initial.
Proof.
  apply (process_starts_at_most_one_fetch Scenarios.undecodable Scenarios.png_upload
           initial).
  reflexivity.
Defined.

(** X7. The pipeline never hands back a changed image without reporting a
    face: a resolved value with [faceDetected] false is exactly the input
    string with no detection. *)
Theorem unflagged_result_is_input (w : World) (url : string) (s s' : State)
    (r : ProcessingResult) :
  processImageWithFaceDetection w url s = (Resolved r, s') ->
  faceDetected r = false ->
  r = mkResult url false None.
Proof.
  rewrite process_cases.
  destruct (loadImage w InProcess url) as [img|]; [|discriminate].
  destruct (detectFace w img s) as [[[d|] | e] s1].
  - destruct (cropImageToFace w url d default_padding);
      intros [= <- <-]; cbn; [discriminate | reflexivity].
  - intros [= <- <-]; reflexivity.
  - intros [= <- <-]; reflexivity.
Qed.

Lemma unflagged_result_is_input_witness :
  exists r s',
    processImageWithFaceDetection Scenarios.no_canvas Scenarios.png_upload initial
    = (Resolved r, s') /\
    faceDetected r = false /\ processedImage r = Scenarios.png_upload.
Proof.
  destruct (processImageWithFaceDetection Scenarios.no_canvas Scenarios.png_upload initial)
    as [o s'] eqn:Hrun.
  pose proof Hrun as Hval. vm_compute in Hval. injection Hval as <- <-.
  do 2 eexists. split; [reflexivity|]. split; [reflexivity|].
  rewrite (unflagged_result_is_input _ _ _ _ _ Hrun eq_refl). reflexivity.
Defined.

(** X8. The path on which everything works: the input decodes, the model
    load resolves from a state that keeps the invariant, the detector
    reports a face, the image decodes again inside [cropImageToFace] and a
    2d context is there.  Then the pipeline resolves with [faceDetected]
    true, the detection itself, and the JPEG of the crop computed with the
    default padding 1.8 from the dimensions of the second decode. *)
Theorem face_found_and_cropped (w : World) (url : string) (s : State)
    (img img2 : HTMLImageElement) (d : FaceDetection) :
  consistent s ->
  loadImage w InProcess url = Some img ->
  fst (loadModels w s) = Resolved tt ->
  detectSingleFace w img detectorOptions = Resolved (Some d) ->
  loadImage w InCrop url = Some img2 ->
  getContext2d w = true ->
  fst (processImageWithFaceDetection w url s) =
  Resolved
    (mkResult
       (toDataURL w
          (drawCrop img2
             (Geometry.cropGeometry (box d) (inject_Z (img_width img2))
                (inject_Z (img_height img2)) (18 # 10)))
          "image/jpeg" (95 # 100))
       true (Some d)).
Proof.
  intros Hc Hload Hmodel Hdet Hload2 Hctx.
  rewrite process_cases, Hload, detectFace_cases.
  pose proof (loadModels_consistent w s Hc) as Hc1.
  destruct (loadModels w s) as [[[] | e] s1] eqn:Hrun; cbn in Hmodel; [|discriminate].
  assert (Hfa : faceapi s1 = true).
  { apply Hc1. cbn. apply (loadModels_resolved w s s1 tt Hrun). }
  rewrite Hfa, Hdet. unfold cropImageToFace. rewrite Hload2, Hctx. reflexivity.
Qed.

Lemma face_found_and_cropped_witness :
  fst (processImageWithFaceDetection Scenarios.with_face Scenarios.png_upload initial)
  = Resolved (mkResult "data:image/jpeg;base64," true (Some Scenarios.scenario_face)).
Proof.
  rewrite (face_found_and_cropped Scenarios.with_face Scenarios.png_upload initial
             (mkImage Scenarios.png_upload 1000 800)
             (mkImage Scenarios.png_upload 1000 800) Scenarios.scenario_face).
  - reflexivity.
  - intros H; discriminate H.
  - reflexivity.
  - reflexivity.
  - reflexivity.
  - reflexivity.
  - reflexivity.
Defined.



(** X21. A loaded model is loaded for good.  In any world, the outcomes of
    [n] calls of [loadModels] made one after the other are some rejections
    followed only by resolutions: no call after a resolved one rejects.
    Each rejected call started at most one fetch, the first resolved one at
    most one more, and the later ones none. *)
Theorem loadModels_rejections_then_resolutions (w : World) (n : nat) (s : State) :
  exists failed succeeded,
    fst (loadModelsTimes w n s) = (failed ++ succeeded)%list /\
    Forall (fun o => exists e, o = Rejected e) failed /\
    Forall (fun o => o = Resolved tt) succeeded /\
    (fetches (snd (loadModelsTimes w n s))
     <= fetches s + List.length failed + 1)%nat /\
    (succeeded <> [] -> modelsLoaded (snd (loadModelsTimes w n s)) = true).
Proof.
  revert s. induction n as [|n IH]; intros s.
  - exists [], []. cbn.
    split; [reflexivity|]. split; [constructor|]. split; [constructor|].
    split; [lia | intros Hne; now elim Hne].
  - cbn [loadModelsTimes].
    pose proof (loadModels_footprint w s) as Hfoot. cbv zeta in Hfoot.
    destruct (loadModels w s) as [[[] | e] s1] eqn:Hrun; cbn [snd] in Hfoot.
    + pose proof (loadModels_resolved w s s1 tt Hrun) as Hl1.
      rewrite (loadModelsTimes_loaded w n s1 Hl1). cbn [fst snd].
      exists [], (Resolved tt :: repeat (Resolved tt) n).
      split; [reflexivity|]. split; [constructor|]. split.
      * constructor; [reflexivity|]. clear. induction n; cbn; constructor; auto.
      * split; [cbn; lia | intros _; exact Hl1].
    + destruct (IH s1) as (failed & succeeded & Houts & Hf & Hs & Hcount & Hflag).
      destruct (loadModelsTimes w n s1) as [outs s2]. cbn [fst snd] in *.
      exists (Rejected e :: failed), succeeded.
      split; [cbn; now rewrite Houts|]. split; [constructor; eauto|].
      split; [exact Hs|]. split; [cbn; lia | exact Hflag].
Qed.

Lemma loadModels_rejections_then_resolutions_witness :
  fst (loadModelsTimes Scenarios.flaky_network 3 initial)
  = [Rejected "Failed to fetch"; Resolved tt; Resolved tt] /\
  modelsLoaded (snd (loadModelsTimes Scenarios.flaky_network 3 initial)) = true.
Proof.
  split; [reflexivity|].
  destruct (loadModels_rejections_then_resolutions Scenarios.flaky_network 3 initial)
    as (failed & succeeded & Houts & Hfailed & _ & _ & Hflag).
  apply Hflag. intros Hnone. subst succeeded.
  rewrite app_nil_r in Houts. subst failed.
  apply Forall_inv_tail, Forall_inv in Hfailed.
  destruct Hfailed as [e He]. discriminate He.
Defined.

End PipelineExtras.

(** ** Overlapping callers of loadModels *)

Module CallersFacts.
Import Interleaving Callers.

(** One resumption: a caller starts a fetch only by giving up its right to
    one, and likewise for imports; the flag is never cleared; the caller
    gets one suspension point closer to settling. *)
Lemma resume_accounts (w : World) (t : LoadTask) (s : State) :
  let t' := fst (resume w t s) in
  let s' := snd (resume w t s) in
  (fetches s' + mayFetch t' <= fetches s + mayFetch t)%nat /\
  (imports s' + mayImport t' <= imports s + mayImport t)%nat /\
  (fetches s <= fetches s')%nat /\ (imports s <= imports s')%nat /\
  (modelsLoaded s = true -> modelsLoaded s' = true) /\
  (stepsLeft t' <= pred (stepsLeft t))%nat.
Proof.
  destruct t as [| k | k | o]; cbn.
  - destruct (modelsLoaded s) eqn:Hl; cbn; [repeat split; auto; lia|].
    destruct (faceapi s); cbn; rewrite ?Hl; repeat split; auto; lia.
  - destruct (import_faceapi w k); cbn; repeat split; auto; lia.
  - destruct (loadFromUri w k MODEL_URL); cbn; repeat split; auto; lia.
  - repeat split; auto; lia.
Qed.

(** Resuming caller [i] changes only caller [i]. *)
Lemma resumeNth_nth (w : World) (i j : nat) (p : Pool) (s : State) (dflt : LoadTask) :
  nth j (fst (resumeNth w i p s)) dflt =
  if andb (Nat.eqb i j) (Nat.ltb i (List.length p))
  then fst (resume w (nth i p dflt) s)
  else nth j p dflt.
Proof.
  revert i j s. induction p as [|t rest IH]; intros i j s.
  - destruct i, j; cbn; try reflexivity.
    now rewrite Bool.andb_false_r.
  - destruct i as [|i]; cbn [resumeNth].
    + destruct (resume w t s) as [t' s'] eqn:Hr. destruct j; cbn; [|reflexivity].
      now rewrite Hr.
    + specialize (IH i). destruct (resumeNth w i rest s) as [rest' s'] eqn:Hr.
      destruct j as [|j]; cbn [fst nth]; [reflexivity|].
      specialize (IH j s). rewrite Hr in IH. cbn [fst] in IH. rewrite IH.
      reflexivity.
Qed.

Lemma resumeNth_length (w : World) (i : nat) (p : Pool) (s : State) :
  List.length (fst (resumeNth w i p s)) = List.length p.
Proof.
  revert i s. induction p as [|t rest IH]; intros i s; [now destruct i|].
  destruct i as [|i]; cbn [resumeNth].
  - destruct (resume w t s); reflexivity.
  - specialize (IH i s). destruct (resumeNth w i rest s). cbn in *. now rewrite IH.
Qed.





(** X11. No caller waits for ever: a caller settles after being resumed at
    most three times, whatever the other callers did to the state in
    between; and under any schedule that gives every caller present at
    least three turns, every caller has settled at the end. *)
Theorem callers_all_settle (w : World) (sched : list nat) (p : Pool) (s : State) :
  (forall t s1 s2 s3,
     isSettled
       (fst (resume w (fst (resume w (fst (resume w t s1)) s2)) s3)) = true) /\
  ((forall i, (i < List.length p)%nat -> (3 <= turns i sched)%nat) ->
   forallb isSettled (fst (runSchedule w sched p s)) = true).
Proof.
  split.
  - intros t s1 s2 s3.
    pose proof (resume_accounts w t s1) as H1. cbv zeta in H1.
    destruct H1 as (_ & _ & _ & _ & _ & H1).
    pose proof (resume_accounts w (fst (resume w t s1)) s2) as H2. cbv zeta in H2.
    destruct H2 as (_ & _ & _ & _ & _ & H2).
    pose proof (resume_accounts w (fst (resume w (fst (resume w t s1)) s2)) s3) as H3.
    cbv zeta in H3. destruct H3 as (_ & _ & _ & _ & _ & H3).
    assert (Hmax : (stepsLeft t <= 3)%nat) by (destruct t; cbn; lia).
    destruct (fst (resume w (fst (resume w (fst (resume w t s1)) s2)) s3));
      cbn in *; try lia; reflexivity.
  - intros Hfair.
    assert (Hsteps : forall sched p s i,
      (stepsLeft (nth i (fst (runSchedule w sched p s)) (Settled (Resolved tt)))
       <= stepsLeft (nth i p (Settled (Resolved tt))) - turns i sched)%nat /\
      List.length (fst (runSchedule w sched p s)) = List.length p).
    { clear. induction sched as [|j sched IH]; intros p s i.
      - cbn. split; [lia | reflexivity].
      - cbn [runSchedule].
        pose proof (resumeNth_nth w j i p s (Settled (Resolved tt))) as Hn.
        pose proof (resumeNth_length w j p s) as Hlen.
        destruct (resumeNth w j p s) as [p1 s1]. cbn [fst] in Hn, Hlen.
        destruct (IH p1 s1 i) as [Hle Hl]. split; [|congruence].
        unfold turns in *. cbn [count_occ].
        destruct (Nat.eq_dec j i) as [-> | Hne].
        + rewrite Nat.eqb_refl in Hn. cbn [andb] in Hn.
          destruct (Nat.ltb i (List.length p)) eqn:Hlt.
          * pose proof (resume_accounts w (nth i p (Settled (Resolved tt))) s) as Hr.
            cbv zeta in Hr. destruct Hr as (_ & _ & _ & _ & _ & Hr).
            rewrite Hn in Hle. lia.
          * apply Nat.ltb_ge in Hlt.
            rewrite Hn in Hle. rewrite (nth_overflow p _ Hlt) in *. cbn in *. lia.
        + apply Nat.eqb_neq in Hne. rewrite Hne in Hn. cbn [andb] in Hn.
          rewrite Hn in Hle. exact Hle. }
    apply forallb_forall. intros t Hin.
    destruct (In_nth _ _ (Settled (Resolved tt)) Hin) as (i & Hi & Hnth).
    destruct (Hsteps sched p s i) as [Hle Hlen].
    rewrite Hlen in Hi. specialize (Hfair i Hi).
    assert (Hmax : (stepsLeft (nth i p (Settled (Resolved tt))) <= 3)%nat)
      by (destruct (nth i p (Settled (Resolved tt))); cbn; lia).
    rewrite Hnth in Hle. destruct t; cbn in *; try lia; reflexivity.
Qed.

Lemma callers_all_settle_witness :
  forallb isSettled
    (fst (runSchedule Scenarios.flaky_network [1; 0; 0; 1; 1; 0]%nat
            [AtEntry; AtEntry] initial)) = true.
Proof.
  apply (callers_all_settle Scenarios.flaky_network [1; 0; 0; 1; 1; 0]%nat
           [AtEntry; AtEntry] initial).
  intros i Hi. cbn in Hi.
  destruct i as [|[|i]]; cbn; lia.
Defined.

End CallersFacts.

(** ** The form: handlers of App.tsx *)

Module AppFacts.
Import GatewayFacts PipelineFacts.

Lemma member_In (k : string) (l : list string) :
  Selectors.member k l = true <-> In k l.
Proof.
  unfold Selectors.member. rewrite existsb_exists. split.
  - intros (k' & Hin & Heq). apply String.eqb_eq in Heq. now subst.
  - intros Hin. exists k. split; [exact Hin | apply String.eqb_refl].
Qed.

(** A resolved pipeline value is the fallback or a crop. *)
Lemma process_resolved_cases (w : World) (url : string) (s s' : State)
    (r : ProcessingResult) :
  processImageWithFaceDetection w url s = (Resolved r, s') ->
  r = mkResult url false None \/
  exists d cropped,
    r = mkResult cropped true (Some d) /\
    cropImageToFace w url d default_padding = Resolved cropped.
Proof.
  rewrite process_cases.
  destruct (loadImage w InProcess url) as [img|]; [|discriminate].
  destruct (detectFace w img s) as [[[d|] | e] s1].
  - destruct (cropImageToFace w url d default_padding) as [cropped|] eqn:Hcrop;
      intros [= <- <-]; [right; eauto | left; reflexivity].
  - intros [= <- <-]. left. reflexivity.
  - intros [= <- <-]. left. reflexivity.
Qed.

(** What the shared [try]/[catch]/[finally] does to the form. *)
Lemma processOrKeep_app (w : World) (enabled : bool) (image label : string)
    (a : App.AppState) (s : State) :
  fst (App.processOrKeep w enabled image label a s) =
  App.setIsProcessingImage false
    (App.setFaceDetected (snd (App.chosenImage w enabled image s))
       (App.setSelectedImage (Some (fst (App.chosenImage w enabled image s))) a)).
Proof.
  unfold App.processOrKeep, App.chosenImage.
  destruct enabled; [|reflexivity].
  destruct (processImageWithFaceDetection w image s) as [[[processed detected dt] | e] s1];
    reflexivity.
Qed.

(** What it does to the module state: with detection off nothing but a
    console line, with detection on what the pipeline does. *)
Lemma processOrKeep_module (w : World) (enabled : bool) (image label : string)
    (a : App.AppState) (s : State) :
  let s' := snd (App.processOrKeep w enabled image label a s) in
  let s1 := if enabled then snd (processImageWithFaceDetection w image s) else s in
  faceapi s' = faceapi s1 /\ modelsLoaded s' = modelsLoaded s1 /\
  imports s' = imports s1 /\ fetches s' = fetches s1.
Proof.
  unfold App.processOrKeep.
  destruct enabled; [|cbn; auto].
  destruct (processImageWithFaceDetection w image s) as [[[processed detected dt] | e] s1];
    cbn; auto.
Qed.

(** Setting a property that is there keeps the keys and their order. *)
Lemma setProperty_keys (k : string) (v : bool) (o : App.Options) :
  In k (map fst o) -> map fst (App.setProperty k v o) = map fst o.
Proof.
  induction o as [|[k' v'] rest IH]; cbn; [contradiction|].
  destruct (String.eqb k' k) eqn:Heq; [reflexivity|].
  intros [Hk | Hin]; [subst; now rewrite String.eqb_refl in Heq|].
  cbn. now rewrite IH.
Qed.

Lemma setProperty_get (k : string) (v : bool) (o : App.Options) :
  Panel.ownProperty k (App.setProperty k v o) = Some v.
Proof.
  induction o as [|[k' v'] rest IH]; cbn.
  - now rewrite String.eqb_refl.
  - destruct (String.eqb k' k) eqn:Heq; cbn; rewrite Heq; [reflexivity | exact IH].
Qed.

Lemma setProperty_other (k k' : string) (v : bool) (o : App.Options) :
  k' <> k ->
  Panel.ownProperty k' (App.setProperty k v o) = Panel.ownProperty k' o.
Proof.
  intros Hne. induction o as [|[k0 v0] rest IH]; cbn.
  - destruct (String.eqb k k') eqn:Heq; [|reflexivity].
    apply String.eqb_eq in Heq. congruence.
  - destruct (String.eqb k0 k) eqn:Heq; cbn.
    + apply String.eqb_eq in Heq. subst k0.
      destruct (String.eqb k k') eqn:Heq'; [|reflexivity].
      apply String.eqb_eq in Heq'. congruence.
    + now rewrite IH.
Qed.

(** Every checkbox the panel renders for a selectable filter is one of the
    five properties of [customOptions]. *)
Lemma toggleIds_known (f i : string) :
  In f Selectors.filterIds -> In i (Panel.toggleIds f) -> In i App.optionKeys.
Proof.
  intros Hf Hi.
  assert (Hall : forallb
            (fun f => forallb (fun i => Selectors.member i App.optionKeys)
                        (Panel.toggleIds f))
            Selectors.filterIds = true) by reflexivity.
  rewrite forallb_forall in Hall. specialize (Hall f Hf).
  rewrite forallb_forall in Hall. apply member_In, Hall, Hi.
Qed.

(** In the form view of a well-formed state the poster flag is off. *)
Lemma formView_flag (a : App.AppState) :
  App.wellFormed a -> App.render a = App.FormView -> App.showPoster a = false.
Proof.
  intros (Hposter & _) Hview. unfold App.render in Hview.
  destruct (App.showPoster a); [|reflexivity].
  destruct (Hposter eq_refl) as [_ Himg]. rewrite Himg in Hview. discriminate.
Qed.

(** A state whose poster flag is off is well formed as soon as its selections
    and options are. *)
Lemma wellFormed_form (a : App.AppState) :
  App.showPoster a = false ->
  In (App.selectedFilter a) Selectors.filterIds ->
  In (App.selectedFont a) Selectors.fontIds ->
  map fst (App.customOptions a) = App.optionKeys ->
  App.isProcessingImage a = false ->
  App.wellFormed a.
Proof.
  intros Hoff Hf Hfont Hkeys Hproc. unfold App.wellFormed.
  rewrite Hoff. repeat split; auto; discriminate.
Qed.

Lemma handle_wellFormed (w : World) (ev : App.Event) (a : App.AppState) (s : State) :
  App.wellFormed a -> App.enabled a ev = true ->
  App.wellFormed (fst (App.handle w ev a s)).
Proof.
  intros Hwf Hen. unfold App.enabled in Hen.
  destruct (App.render a) eqn:Hview.
  - (* poster view: only the back button *)
    destruct ev; try discriminate Hen.
    destruct Hwf as (_ & Hf & Hfont & Hkeys & Hproc).
    apply wellFormed_form; assumption || reflexivity.
  - pose proof (formView_flag a Hwf Hview) as Hoff.
    destruct Hwf as (_ & Hf & Hfont & Hkeys & Hproc).
    destruct ev; cbn [App.handle fst].
    + apply wellFormed_form; assumption.
    + apply wellFormed_form; assumption.
    + unfold App.handleFaceDetectionToggle.
      destruct (App.originalImage a) as [original|];
        [destruct (App.truthy (Some original))|];
        rewrite ?processOrKeep_app; apply wellFormed_form; assumption || reflexivity.
    + unfold App.handleImageUpload. destruct file as [url|];
        rewrite ?processOrKeep_app; apply wellFormed_form; assumption || reflexivity.
    + apply member_In in Hen. apply wellFormed_form; assumption.
    + apply member_In in Hen. apply wellFormed_form; assumption.
    + apply member_In in Hen.
      pose proof (toggleIds_known _ _ Hf Hen) as Hknown.
      apply wellFormed_form; try assumption.
      cbn. rewrite setProperty_keys; [exact Hkeys | now rewrite Hkeys].
    + unfold App.handleGeneratePoster. rewrite Hen.
      apply andb_prop in Hen. repeat split; try assumption; apply Hen.
    + discriminate Hen.
Qed.

Lemma session_wellFormed (w : World) (events : list App.Event)
    (a : App.AppState) (s : State) :
  App.wellFormed a -> App.wellFormed (fst (App.session w events a s)).
Proof.
  revert a s. induction events as [|ev rest IH]; intros a s Hwf; [exact Hwf|].
  cbn [App.session]. destruct (App.enabled a ev) eqn:Hen; [|now apply IH].
  pose proof (handle_wellFormed w ev a s Hwf Hen) as Hnext.
  destruct (App.handle w ev a s) as [a' s']. now apply IH.
Qed.

Lemma initialApp_wellFormed : App.wellFormed App.initialApp.
Proof.
  repeat split; cbn; auto; try discriminate.
Qed.

(** The image a handler ends with is the input unless a face was reported. *)
Lemma chosenImage_cases (w : World) (enabled : bool) (image : string) (s : State) :
  (enabled = false /\ App.chosenImage w enabled image s = (image, None)) \/
  (enabled = true /\ App.chosenImage w enabled image s = (image, Some false)) \/
  (enabled = true /\
   exists d cropped s1,
     processImageWithFaceDetection w image s
       = (Resolved (mkResult cropped true (Some d)), s1) /\
     cropImageToFace w image d default_padding = Resolved cropped /\
     App.chosenImage w enabled image s = (cropped, Some true)).
Proof.
  unfold App.chosenImage. destruct enabled; [|left; auto].
  right.
  destruct (processImageWithFaceDetection w image s) as [[r | e] s1] eqn:Hrun;
    cbn [fst]; [|left; auto].
  destruct (process_resolved_cases w image s s1 r Hrun)
    as [-> | (d & cropped & -> & Hcrop)].
  - left. auto.
  - right. split; [reflexivity|]. exists d, cropped, s1. auto.
Qed.

(** X12. In every state a session can reach from the initial form, the
    poster is rendered only with a non-empty title and an image; the
    selected style and font are entries of the selector tables; and
    [customOptions] has exactly its five properties, each with a value, so
    no checkbox and no poster element ever reads a missing option. *)
Theorem session_keeps_form_sound (w : World) (events : list App.Event) :
  let a := fst (App.session w events App.initialApp initial) in
  (App.render a = App.PosterView ->
   App.nonEmpty (App.name a) = true /\ App.truthy (App.selectedImage a) = true) /\
  In (App.selectedFilter a) Selectors.filterIds /\
  In (App.selectedFont a) Selectors.fontIds /\
  map fst (App.customOptions a) = App.optionKeys /\
  (forall k, In k App.optionKeys ->
     exists v, Panel.ownProperty k (App.customOptions a) = Some v).
Proof.
  cbv zeta.
  pose proof (session_wellFormed w events App.initialApp initial initialApp_wellFormed)
    as (Hposter & Hf & Hfont & Hkeys & Hproc).
  remember (fst (App.session w events App.initialApp initial)) as a eqn:Ea.
  split; [|split; [|split; [|split]]]; try assumption.
  - intros Hview. unfold App.render in Hview.
    destruct (App.showPoster a); [|discriminate Hview].
    now apply Hposter.
  - intros k Hk. rewrite <- Hkeys in Hk. clear - Hk.
    induction (App.customOptions a) as [|[k' v'] rest IH]; cbn in *; [contradiction|].
    destruct (String.eqb k' k) eqn:Heq; [eauto|].
    destruct Hk as [-> | Hin]; [now rewrite String.eqb_refl in Heq | auto].
Qed.

Lemma session_keeps_form_sound_witness :
  let a := fst (App.session Scenarios.with_face
                  [ App.ClickGenerate;
                    App.ChangeName [66; 105; 108; 108; 121]%N;
                    App.ChooseFile (Some Scenarios.png_upload);
                    App.ClickGenerate ]
                  App.initialApp initial) in
  App.render a = App.PosterView /\
  App.nonEmpty (App.name a) = true /\ App.truthy (App.selectedImage a) = true.
Proof.
  cbv zeta. split; [reflexivity|].
  apply (session_keeps_form_sound Scenarios.with_face
           [ App.ClickGenerate;
             App.ChangeName [66; 105; 108; 108; 121]%N;
             App.ChooseFile (Some Scenarios.png_upload);
             App.ClickGenerate ]).
  reflexivity.
Defined.

(** X13. An upload that no other upload or toggle overlaps (the handler
    runs from the file's arrival to its [finally] with no other handler in
    between) ends with an image to show: the original is remembered, the
    processing flag is off again, and the selected image is the uploaded
    one unless a face is reported, in which case it is the crop the
    pipeline resolved with.  When the pipeline rejects (the bytes
    do not decode), the handler's catch selects the uploaded image and
    reports no face.  Nothing else on the form changes, and choosing no
    file changes nothing. *)
Theorem upload_always_yields_image (w : World) (url : string)
    (a : App.AppState) (s : State) :
  let a' := fst (App.handleImageUpload w (Some url) a s) in
  App.originalImage a' = Some url /\
  App.isProcessingImage a' = false /\
  (App.faceDetected a' <> Some true -> App.selectedImage a' = Some url) /\
  (App.faceDetected a' = Some true ->
   App.faceDetectionEnabled a = true /\
   exists d cropped s1,
     processImageWithFaceDetection w url s
       = (Resolved (mkResult cropped true (Some d)), s1) /\
     App.selectedImage a' = Some cropped) /\
  (App.faceDetectionEnabled a = true ->
   (exists e, fst (processImageWithFaceDetection w url s) = Rejected e) ->
   App.selectedImage a' = Some url /\ App.faceDetected a' = Some false) /\
  (App.name a', App.location a', App.selectedFilter a', App.selectedFont a',
   App.customOptions a', App.showPoster a', App.faceDetectionEnabled a')
  = (App.name a, App.location a, App.selectedFilter a, App.selectedFont a,
     App.customOptions a, App.showPoster a, App.faceDetectionEnabled a) /\
  App.handleImageUpload w None a s = (a, s).
Proof.
  cbv zeta. unfold App.handleImageUpload. rewrite processOrKeep_app. cbn.
  split; [reflexivity|]. split; [reflexivity|].
  destruct (chosenImage_cases w (App.faceDetectionEnabled a) url s)
    as [[Hen Hc] | [[Hen Hc] | (Hen & d & cropped & s1 & Hrun & _ & Hc)]];
    rewrite Hc; cbn; (split; [|split; [|split; [|split]]]); try reflexivity.
  - intros Hyes. discriminate Hyes.
  - intros Hon. rewrite Hen in Hon. discriminate Hon.
  - intros Hyes. discriminate Hyes.
  - intros _ _. split; reflexivity.
  - intros Hno. now elim Hno.
  - intros _. split; [exact Hen|]. exists d, cropped, s1. split; [exact Hrun | reflexivity].
  - intros _ [e He]. rewrite Hrun in He. discriminate He.
Qed.

Lemma upload_always_yields_image_witness :
  let a' := fst (App.handleImageUpload Scenarios.undecodable
                   (Some Scenarios.png_upload) App.initialApp initial) in
  App.selectedImage a' = Some Scenarios.png_upload /\
  App.faceDetected a' = Some false.
Proof.
  cbv zeta.
  destruct (upload_always_yields_image Scenarios.undecodable Scenarios.png_upload
              App.initialApp initial) as (_ & _ & _ & _ & Hcatch & _).
  apply Hcatch; [reflexivity|].
  exists "Failed to load image". reflexivity.
Defined.

(** X14. With detection switched off nothing of the detector is touched:
    an upload selects the file as it is with no detection status, switching
    detection off selects the original again, and neither starts an import
    or a fetch nor changes flag or module reference. *)
Theorem detection_off_never_loads_model (w : World) (file : option string)
    (a : App.AppState) (s : State) :
  (App.faceDetectionEnabled a = false ->
   let r := App.handleImageUpload w file a s in
   (forall url, file = Some url ->
      App.selectedImage (fst r) = Some url /\ App.faceDetected (fst r) = None) /\
   faceapi (snd r) = faceapi s /\ modelsLoaded (snd r) = modelsLoaded s /\
   imports (snd r) = imports s /\ fetches (snd r) = fetches s) /\
  (let r := App.handleFaceDetectionToggle w false a s in
   App.faceDetectionEnabled (fst r) = false /\
   faceapi (snd r) = faceapi s /\ modelsLoaded (snd r) = modelsLoaded s /\
   imports (snd r) = imports s /\ fetches (snd r) = fetches s).
Proof.
  split.
  - intros Hoff. cbv zeta. unfold App.handleImageUpload.
    destruct file as [url|]; [|cbn; repeat split; auto; discriminate].
    rewrite processOrKeep_app.
    pose proof (processOrKeep_module w (App.faceDetectionEnabled a) url
                  "Error processing image:"
                  (App.setOriginalImage (Some url)
                     (App.setIsProcessingImage true (App.setFaceDetected None a))) s)
      as Hm.
    cbv zeta in Hm. cbn [App.faceDetectionEnabled App.setOriginalImage
      App.setIsProcessingImage App.setFaceDetected] in *.
    rewrite Hoff in *. split; [|exact Hm].
    intros url' [= <-]. cbn. auto.
  - cbv zeta. unfold App.handleFaceDetectionToggle.
    destruct (App.originalImage a) as [original|]; [|cbn; auto].
    destruct (App.truthy (Some original)); [|cbn; auto].
    rewrite processOrKeep_app.
    pose proof (processOrKeep_module w false original "Error reprocessing image:"
                  (App.setFaceDetected None
                     (App.setIsProcessingImage true
                        (App.setFaceDetectionEnabled false a))) s) as Hm.
    cbv zeta in Hm. split; [reflexivity | exact Hm].
Qed.

Lemma detection_off_never_loads_model_witness :
  let a := App.setFaceDetectionEnabled false App.initialApp in
  let r := App.handleImageUpload Scenarios.with_face (Some Scenarios.png_upload)
             a initial in
  App.selectedImage (fst r) = Some Scenarios.png_upload /\
  App.faceDetected (fst r) = None /\ fetches (snd r) = 0%nat.
Proof.
  cbv zeta.
  destruct (detection_off_never_loads_model Scenarios.with_face
              (Some Scenarios.png_upload)
              (App.setFaceDetectionEnabled false App.initialApp) initial)
    as [Hupload _].
  destruct (Hupload eq_refl) as (Himage & _ & _ & _ & Hfetch).
  destruct (Himage Scenarios.png_upload eq_refl) as [Hsel Hstatus].
  split; [exact Hsel|]. split; [exact Hstatus | exact Hfetch].
Defined.

(** X15. Toggling works on the original, never on a crop.  After an upload
    of a non-empty data URL, switching detection off selects the uploaded
    image again with no detection status; switching it on afterwards runs
    the pipeline on the uploaded image and selects the image that run ends
    with; the original is kept throughout.  Without an uploaded image a
    toggle only records the setting. *)
Theorem toggle_works_on_original (w : World) (url : string)
    (a : App.AppState) (s : State) :
  (url <> EmptyString ->
   let r1 := App.handleImageUpload w (Some url) a s in
   let r2 := App.handleFaceDetectionToggle w false (fst r1) (snd r1) in
   let r3 := App.handleFaceDetectionToggle w true (fst r2) (snd r2) in
   App.selectedImage (fst r2) = Some url /\
   App.faceDetected (fst r2) = None /\
   App.originalImage (fst r2) = Some url /\
   App.originalImage (fst r3) = Some url /\
   App.selectedImage (fst r3)
     = Some (fst (App.chosenImage w true url (snd r2))) /\
   App.faceDetected (fst r3) = snd (App.chosenImage w true url (snd r2))) /\
  (App.originalImage a = None ->
   forall checked,
     App.handleFaceDetectionToggle w checked a s
     = (App.setFaceDetectionEnabled checked a, s)).
Proof.
  split.
  - intros Hne. cbv zeta.
    assert (Htruthy : App.truthy (Some url) = true).
    { cbn. destruct (String.eqb url EmptyString) eqn:Heq; [|reflexivity].
      apply String.eqb_eq in Heq. contradiction. }
    assert (Horig1 : App.originalImage (fst (App.handleImageUpload w (Some url) a s))
                     = Some url).
    { unfold App.handleImageUpload. rewrite processOrKeep_app. reflexivity. }
    assert (Htoggle : forall checked a0 s0, App.originalImage a0 = Some url ->
      fst (App.handleFaceDetectionToggle w checked a0 s0) =
      App.setIsProcessingImage false
        (App.setFaceDetected (snd (App.chosenImage w checked url s0))
           (App.setSelectedImage (Some (fst (App.chosenImage w checked url s0)))
              (App.setFaceDetected None
                 (App.setIsProcessingImage true
                    (App.setFaceDetectionEnabled checked a0)))))).
    { intros checked a0 s0 Ho. unfold App.handleFaceDetectionToggle.
      rewrite Ho, Htruthy. apply processOrKeep_app. }
    remember (App.handleImageUpload w (Some url) a s) as r1 eqn:Er1.
    pose proof (Htoggle false (fst r1) (snd r1) Horig1) as H2.
    remember (App.handleFaceDetectionToggle w false (fst r1) (snd r1)) as r2 eqn:Er2.
    assert (Horig2 : App.originalImage (fst r2) = Some url).
    { rewrite H2. exact Horig1. }
    pose proof (Htoggle true (fst r2) (snd r2) Horig2) as H3.
    rewrite H3, H2. cbn.
    repeat split; exact Horig1.
  - intros Hnone checked. unfold App.handleFaceDetectionToggle.
    now rewrite Hnone.
Qed.

Lemma toggle_works_on_original_witness :
  let r1 := App.handleImageUpload Scenarios.with_face (Some Scenarios.png_upload)
              App.initialApp initial in
  let r2 := App.handleFaceDetectionToggle Scenarios.with_face false (fst r1) (snd r1) in
  App.selectedImage (fst r1) = Some "data:image/jpeg;base64," /\
  App.selectedImage (fst r2) = Some Scenarios.png_upload /\
  App.faceDetected (fst r2) = None.
Proof.
  cbv zeta. split; [reflexivity|].
  destruct (toggle_works_on_original Scenarios.with_face Scenarios.png_upload
              App.initialApp initial) as [Hround _].
  assert (Hne : Scenarios.png_upload <> EmptyString) by discriminate.
  destruct (Hround Hne) as (Hsel & Hstatus & _).
  split; [exact Hsel | exact Hstatus].
Defined.

(** X16. Changing one option is local: the option changed reads back the new
    value, every other option reads back what it did before, and for an
    option that is already there the properties and their order stay as
    they are. *)
Theorem option_change_is_local (option : string) (value : bool) (a : App.AppState) :
  let a' := App.handleCustomOptionChange option value a in
  Panel.ownProperty option (App.customOptions a') = Some value /\
  (forall other, other <> option ->
     Panel.ownProperty other (App.customOptions a')
     = Panel.ownProperty other (App.customOptions a)) /\
  (In option (map fst (App.customOptions a)) ->
   map fst (App.customOptions a') = map fst (App.customOptions a)) /\
  App.setCustomOptions (fun _ => App.customOptions a) a' = a.
Proof.
  cbv zeta. unfold App.handleCustomOptionChange. cbn.
  split; [apply setProperty_get|].
  split; [intros other Hne; now apply setProperty_other|].
  split; [apply setProperty_keys|].
  destruct a; reflexivity.
Qed.

Lemma option_change_is_local_witness :
  let a' := App.handleCustomOptionChange "showReward" false App.initialApp in
  Panel.ownProperty "showReward" (App.customOptions a') = Some false /\
  Panel.ownProperty "showBorder" (App.customOptions a') = Some true /\
  map fst (App.customOptions a') = App.optionKeys.
Proof.
  cbv zeta.
  destruct (option_change_is_local "showReward" false App.initialApp)
    as (Hget & Hother & Hkeys & _).
  split; [exact Hget|]. split.
  - rewrite Hother; [reflexivity | discriminate].
  - rewrite Hkeys; [reflexivity|]. cbn. auto.
Defined.

End AppFacts.

(** ** The selectors, the option panel and the poster *)

Module PosterFacts.
Import Poster.

Lemma replaceRuns_clean (inRun : bool) (s : App.JSString) :
  Forall clean (Poster.replaceRuns inRun s).
Proof.
  revert inRun. induction s as [|c rest IH]; intros inRun; cbn; [constructor|].
  destruct (Poster.isWhiteSpace c) eqn:Hc.
  - destruct inRun; [apply IH|]. constructor; [reflexivity | apply IH].
  - constructor; [exact Hc | apply IH].
Qed.

Lemma replaceRuns_fixes_clean (inRun : bool) (s : App.JSString) :
  Forall clean s -> Poster.replaceRuns inRun s = s.
Proof.
  intros Hs. revert inRun. induction Hs as [|c rest Hc _ IH]; intros inRun; cbn;
    [reflexivity|].
  unfold clean in Hc. rewrite Hc. now rewrite IH.
Qed.

Lemma replaceRuns_length (inRun : bool) (s : App.JSString) :
  (List.length (Poster.replaceRuns inRun s) <= List.length s)%nat.
Proof.
  revert inRun. induction s as [|c rest IH]; intros inRun; cbn; [lia|].
  destruct (Poster.isWhiteSpace c).
  - destruct inRun; cbn; [specialize (IH true) | specialize (IH true)]; lia.
  - cbn. specialize (IH false). lia.
Qed.

Lemma suffix_clean : Forall clean (Poster.codeUnits "_poster.png").
Proof. repeat constructor. Qed.

(** X17. The font shown in the selector is the font of the poster: for
    every entry of the font table, [getFontFamily] maps its identifier to
    the style the selector previews it in; any other identifier gets the
    plain serif. *)
Theorem font_preview_matches_poster :
  Forall (fun f => Poster.getFontFamily (Selectors.font_id f) = Selectors.font_style f)
         Selectors.fonts /\
  (forall font, ~ In font Selectors.fontIds -> Poster.getFontFamily font = "serif").
Proof.
  split.
  - repeat constructor.
  - intros font Hnot. unfold Poster.getFontFamily.
    destruct (String.eqb font "western") eqn:E1;
      [apply String.eqb_eq in E1; subst font; elim Hnot; cbn; tauto|].
    destruct (String.eqb font "oldstyle") eqn:E2;
      [apply String.eqb_eq in E2; subst font; elim Hnot; cbn; tauto|].
    destruct (String.eqb font "display") eqn:E3;
      [apply String.eqb_eq in E3; subst font; elim Hnot; cbn; tauto|].
    destruct (String.eqb font "decorative") eqn:E4;
      [apply String.eqb_eq in E4; subst font; elim Hnot; cbn; tauto|].
    reflexivity.
Qed.

Lemma font_preview_matches_poster_witness :
  Poster.getFontFamily "comic" = "serif".
Proof.
  apply font_preview_matches_poster.
  cbn. intuition discriminate.
Defined.

(** X18. The panel and the poster agree on every selectable style: the
    panel finds an entry of its own for it, the checkboxes it renders have
    distinct identifiers, start with the two base options and all name one
    of the five options of the form; and it offers the reward checkbox
    exactly for the styles on which the poster can show the reward banner.
    For any style at all, the banner is only shown under the header WANTED. *)
Theorem panel_matches_poster :
  (forall f, In f Selectors.filterIds ->
     (exists specific,
        Panel.ownProperty f Panel.filterSpecificOptions = Some specific /\
        Panel.getToggleOptions f = Some (Panel.baseOptions ++ specific)%list) /\
     NoDup (Panel.toggleIds f) /\
     (forall i, In i (Panel.toggleIds f) -> In i App.optionKeys) /\
     (In "showReward" (Panel.toggleIds f) <->
      Poster.showsRewardBanner (App.customOptions App.initialApp) f = true)) /\
  (forall options f,
     Poster.showsRewardBanner options f = true ->
     Poster.headerText (Poster.getFilterStyles f) = "WANTED").
Proof.
  split.
  - intros f Hf. cbn in Hf.
    repeat (destruct Hf as [<- | Hf]); try contradiction;
      (split; [eexists; split; reflexivity|]);
      (split; [cbn; repeat constructor; cbn; intuition discriminate|]);
      (split; [cbn; intuition (subst; auto 10)|]);
      cbn; intuition discriminate.
  - intros options f Hshow. unfold Poster.showsRewardBanner in Hshow.
    apply andb_prop in Hshow. destruct Hshow as [_ Hstyle].
    apply Bool.orb_prop in Hstyle. destruct Hstyle as [Hstyle | Hv].
    + apply Bool.orb_prop in Hstyle. destruct Hstyle as [Hr | Hc];
        apply String.eqb_eq in Hr || apply String.eqb_eq in Hc; subst f; reflexivity.
    + apply String.eqb_eq in Hv. subst f. reflexivity.
Qed.

Lemma panel_matches_poster_witness :
  In "showReward" (Panel.toggleIds "vintage") /\
  ~ In "showReward" (Panel.toggleIds "saloon").
Proof.
  destruct panel_matches_poster as [Hpanel _].
  split.
  - destruct (Hpanel "vintage") as (_ & _ & _ & Hreward); [cbn; auto|].
    apply Hreward. reflexivity.
  - destruct (Hpanel "saloon") as (_ & _ & _ & Hreward); [cbn; auto 10|].
    intros Hin. apply Hreward in Hin. discriminate Hin.
Defined.

(** X19. The name of the downloaded file: whatever the title, it contains
    no white space or line break and ends in "_poster.png"; replacing is
    idempotent, leaves a title without white space as it is, and never
    makes a title longer. *)
Theorem download_name_is_clean (name : App.JSString) :
  Forall clean (Poster.downloadName name) /\
  Poster.replaceWhiteSpace (Poster.replaceWhiteSpace name)
    = Poster.replaceWhiteSpace name /\
  (Forall clean name -> Poster.replaceWhiteSpace name = name) /\
  (List.length (Poster.replaceWhiteSpace name) <= List.length name)%nat /\
  skipn (List.length (Poster.replaceWhiteSpace name)) (Poster.downloadName name)
    = Poster.codeUnits "_poster.png".
Proof.
  unfold Poster.downloadName, Poster.replaceWhiteSpace.
  split; [|split; [|split; [|split]]].
  - apply Forall_app. split; [apply replaceRuns_clean | apply suffix_clean].
  - apply replaceRuns_fixes_clean, replaceRuns_clean.
  - apply replaceRuns_fixes_clean.
  - apply replaceRuns_length.
  - rewrite skipn_app, skipn_all, Nat.sub_diag. reflexivity.
Qed.

Lemma download_name_is_clean_witness :
  Poster.replaceWhiteSpace (Poster.codeUnits "BillyTheKid")
  = Poster.codeUnits "BillyTheKid".
Proof.
  apply (download_name_is_clean (Poster.codeUnits "BillyTheKid")).
  repeat constructor.
Defined.

(** A title with spaces, a tab and a line break between its words. *)
Lemma download_name_example :
  Poster.downloadName [66; 105; 108; 108; 121; 32; 32; 9; 116; 104; 101; 10; 75; 105; 100]%N
  = Poster.codeUnits "Billy_the_Kid_poster.png".
Proof. reflexivity. Qed.



End PosterFacts.
